(** * MarketAI-Core: the deterministic core of the campaign pipeline

    A shallow embedding of the orchestration code of MarketAI-Core:
    - [components/step_1_input_parser.py]  (parse_input),
    - [components/step_2_ner_extractor.py]  (extract_entities, on the spaCy
      analysis of the goal),
    - [components/step_3_db_retriever.py]  (the mock get_previous_results),
    - [components/step_4_trend_analyzer.py]  (analyze_trends_via_search and
      its search helper),
    - [components/step_5_context_searcher.py]  (search_google and
      search_local_context),
    - [components/step_7_strategy_recommender.py]  (budget-split correction),
    - [components/step_8_budget_allocator.py]  (allocate_budget),
    - [components/step_9_creative_writer.py]  (copy key derivation),
    - [main.py]  (run_pipeline and the final aggregation).

    Python dicts are insertion-ordered association lists ([dict]); an
    assignment to an existing key keeps its position, a new key is appended.
    Python strings are [String.string] (ASCII). The text-generation and
    search collaborators are inputs of the pipeline. *)

From Stdlib Require Import String Ascii List ZArith Lia Bool.
Import ListNotations.

Local Open Scope string_scope.
Local Open Scope list_scope.
Local Open Scope Z_scope.

(** ** Python string operations *)

(** [sub in s] *)
Fixpoint py_contains (sub s : string) : bool :=
  String.prefix sub s
  || match s with
     | EmptyString => false
     | String _ s' => py_contains sub s'
     end.

(** [s.split(sep)[0]] for a non-empty separator: the text before the first
    occurrence of [sep], or all of [s]. *)
Fixpoint split_first (sep s : string) : string :=
  if String.prefix sep s then EmptyString
  else match s with
       | EmptyString => EmptyString
       | String c s' => String c (split_first sep s')
       end.

(** Whitespace of [str.split()] on ASCII text: \t \n \v \f \r, \x1c-\x1f
    and space. *)
Definition is_py_space (c : ascii) : bool :=
  let n := nat_of_ascii c in
  (Nat.leb 9 n && Nat.leb n 13) || (Nat.leb 28 n && Nat.leb n 32).

Fixpoint split_ws_acc (cur s : string) : list string :=
  match s with
  | EmptyString => match cur with EmptyString => [] | _ => [cur] end
  | String c s' =>
      if is_py_space c then
        match cur with
        | EmptyString => split_ws_acc EmptyString s'
        | _ => cur :: split_ws_acc EmptyString s'
        end
      else split_ws_acc (String.append cur (String c EmptyString)) s'
  end.

(** [s.split()] *)
Definition py_split_ws (s : string) : list string := split_ws_acc EmptyString s.

(** [l[-1]] when [l] is non-empty *)
Fixpoint py_last {A} (l : list A) : option A :=
  match l with
  | [] => None
  | [x] => Some x
  | _ :: t => py_last t
  end.

Definition ascii_lower (c : ascii) : ascii :=
  let n := nat_of_ascii c in
  if Nat.leb 65 n && Nat.leb n 90 then ascii_of_nat (n + 32) else c.

(** [s.lower()] on ASCII text *)
Fixpoint py_lower (s : string) : string :=
  match s with
  | EmptyString => EmptyString
  | String c s' => String (ascii_lower c) (py_lower s')
  end.

(** [s.replace(c, r)] for a one-character pattern [c] *)
Fixpoint replace_char (c : ascii) (r s : string) : string :=
  match s with
  | EmptyString => EmptyString
  | String c' s' =>
      if Ascii.eqb c c' then String.append r (replace_char c r s')
      else String c' (replace_char c r s')
  end.

(** ** Insertion-ordered dicts *)

Definition dict (V : Type) := list (string * V).

Fixpoint dget {V} (d : dict V) (k : string) : option V :=
  match d with
  | [] => None
  | (k', v) :: t => if String.eqb k k' then Some v else dget t k
  end.

(** [d[k] = v] *)
Fixpoint dset {V} (d : dict V) (k : string) (v : V) : dict V :=
  match d with
  | [] => [(k, v)]
  | (k', v') :: t =>
      if String.eqb k k' then (k', v) :: t else (k', v') :: dset t k v
  end.

Definition keys {V} (d : dict V) : list string := map fst d.

(** [d.get(k, 0)] on integer values; also [d[k]] where the key is present *)
Definition dget0 (d : dict Z) (k : string) : Z :=
  match dget d k with Some v => v | None => 0 end.

(** [sum(d.values())] *)
Definition dsum (d : dict Z) : Z := fold_right (fun kv acc => snd kv + acc) 0 d.

(** [sum(f(k) for k in ks)] *)
Definition wsum (f : string -> Z) (ks : list string) : Z :=
  fold_right (fun k acc => f k + acc) 0 ks.

Fixpoint argmax_from (bk : string) (bv : Z) (d : dict Z) : string :=
  match d with
  | [] => bk
  | (k, v) :: t => if bv <? v then argmax_from k v t else argmax_from bk bv t
  end.

(** [max(d, key=d.get)]: the first key holding the largest value
    ([None] where Python raises on an empty dict). *)
Definition py_max_key (d : dict Z) : option string :=
  match d with
  | [] => None
  | (k, v) :: t => Some (argmax_from k v t)
  end.

(** [for k, v in ps: d[k] = v] *)
Definition set_all {V} (d : dict V) (ps : list (string * V)) : dict V :=
  fold_left (fun d p => dset d (fst p) (snd p)) ps d.

(** ** Step 8: Budget Allocator *)

(** The history summary is [previous_results["previous_campaign_summary"]];
    [None] when [previous_results] is empty or lacks that key. *)
Definition find_high_roi (previous_results : option string)
    (recommended_channels : list string) : option string :=
  match previous_results with
  | None => None
  | Some summary =>
      if py_contains "highest Conversion Rate" summary then
        let part0 := split_first " had the highest Conversion Rate" summary in
        match py_last (py_split_ws part0) with
        | None => None
        | Some potential_channel =>
            find (fun rec_channel => py_contains potential_channel rec_channel)
              recommended_channels
        end
      else None
  end.

(** [for i, channel in enumerate(channels): (channel, base + (1 if i < rem else 0))] *)
Fixpoint alloc_pairs (base rem i : Z) (cs : list string) : list (string * Z) :=
  match cs with
  | [] => []
  | c :: t => (c, base + (if i <? rem then 1 else 0)) :: alloc_pairs base rem (i + 1) t
  end.

Section Allocator.

(** The three float products of the allocator, truncated by [int(...)]:
    [int(x * 0.2)], [int(x * 0.3)] and [int(b * (a / t))]. They are left
    as parameters: IEEE double rounding is not modelled. *)
Variable int_mul_02 : Z -> Z.
Variable int_mul_03 : Z -> Z.
Variable int_scaled : Z -> Z -> Z -> Z.

Definition reduction_of (boost total_other a : Z) : Z :=
  Z.min (int_scaled boost a total_other) (int_mul_03 a).

(** The loop building [reductions] and [actual_boost_taken]. *)
Fixpoint collect_reductions (h : string) (adj : dict Z) (boost total_other : Z)
    (cs : list string) (reds : dict Z) (taken : Z) : dict Z * Z :=
  match cs with
  | [] => (reds, taken)
  | c :: t =>
      if String.eqb c h then collect_reductions h adj boost total_other t reds taken
      else
        let r := reduction_of boost total_other (dget0 adj c) in
        collect_reductions h adj boost total_other t (dset reds c r) (taken + r)
  end.

(** The [(channel, reduction)] pairs the loop above assigns, in order. *)
Definition red_pairs (h : string) (adj : dict Z) (boost total_other : Z)
    (cs : list string) : list (string * Z) :=
  map (fun c => (c, reduction_of boost total_other (dget0 adj c)))
    (filter (fun c => negb (String.eqb c h)) cs).

(** [for channel, reduction in reductions.items(): adj[channel] -= reduction] *)
Definition apply_reductions (adj reds : dict Z) : dict Z :=
  fold_left (fun d p => dset d (fst p) (dget0 d (fst p) - snd p)) reds adj.

Definition apply_boost (total_budget : Z) (cs : list string) (base : Z)
    (h : string) (adj : dict Z) : dict Z :=
  let max_boost := base / 2 in
  let intended_boost := int_mul_02 (dget0 adj h) in
  let boost_amount := Z.min max_boost intended_boost in
  let total_other := total_budget - dget0 adj h in
  if 0 <? total_other then
    let '(reds, taken) := collect_reductions h adj boost_amount total_other cs [] 0 in
    if 0 <? taken then apply_reductions (dset adj h (dget0 adj h + taken)) reds
    else adj
  else adj.

(** Add the drift [total_budget - sum] to the first largest channel. *)
Definition fix_total (total_budget : Z) (adj : dict Z) : dict Z :=
  let diff := total_budget - dsum adj in
  if negb (diff =? 0) then
    match py_max_key adj with
    | Some k => dset adj k (dget0 adj k + diff)
    | None => adj
    end
  else adj.

Definition clamp_negatives (adj : dict Z) : dict Z :=
  map (fun kv => (fst kv, if snd kv <? 0 then 0 else snd kv)) adj.

(** [allocate_budget(total_budget, recommended_channels, previous_results)["budget_split"]] *)
Definition allocate_budget (total_budget : Z) (recommended_channels : list string)
    (previous_results : option string) : dict Z :=
  let num_channels := Z.of_nat (length recommended_channels) in
  if (num_channels =? 0) || (total_budget <=? 0) then []
  else
    let high_roi_channel := find_high_roi previous_results recommended_channels in
    let base := total_budget / num_channels in
    let rem := total_budget mod num_channels in
    let adj := set_all [] (alloc_pairs base rem 0 recommended_channels) in
    let adj :=
      match high_roi_channel with
      | Some h =>
          if negb (String.eqb h "")
             && (match dget adj h with Some _ => true | None => false end)
             && (1 <? num_channels)
          then apply_boost total_budget recommended_channels base h adj
          else adj
      | None => adj
      end in
    let adj := fix_total total_budget adj in
    let adj := clamp_negatives adj in
    fix_total total_budget adj.

End Allocator.

(** Truncation of the exact rational products, an instance of the three
    float products that agrees with the doubles on the inputs used below. *)
Definition exact_mul_02 (x : Z) : Z := Z.quot (x * 2) 10.
Definition exact_mul_03 (x : Z) : Z := Z.quot (x * 3) 10.
Definition exact_scaled (b a t : Z) : Z := Z.quot (b * a) t.

Definition allocate_budget_exact :=
  allocate_budget exact_mul_02 exact_mul_03 exact_scaled.

Example ex_alloc1 :
  allocate_budget_exact 5000 ["Pamphlets"; "Instagram Ads"]
    (Some "Pamphlets had the highest Conversion Rate.")
  = [("Pamphlets", 3000); ("Instagram Ads", 2000)].
Proof. reflexivity. Qed.

Example ex_alloc2 :
  allocate_budget_exact 10 ["A"; "B"; "C"] None = [("A", 4); ("B", 3); ("C", 3)].
Proof. reflexivity. Qed.

Example ex_alloc3 :
  allocate_budget_exact 3 ["A"; "A"] None = [("A", 3)].
Proof. reflexivity. Qed.

(** ** Step 1: Input Parser *)

Inductive pyval : Type :=
| PStr (s : string)
| PInt (z : Z)
| PNone.

(** Python exceptions that reach the driver. *)
Inductive py_exn : Type :=
| ValueError (msg : string)
| HTTPException (status_code : Z) (detail : string).

Inductive outcome (A : Type) : Type :=
| Ret (a : A)
| Raise (e : py_exn).
Arguments Ret {A} a.
Arguments Raise {A} e.

(** The request as validated by [ApiInput]: every field present and of its
    declared type. *)
Record api_input : Type := {
  business_type : string;
  location : string;
  goal_description : string;
  budget_min : option Z;
  budget_max : option Z;
  budget_fixed : option Z;
  channel_preference : string;
  user_id : string
}.

Definition opt_int (o : option Z) : pyval :=
  match o with Some z => PInt z | None => PNone end.

(** [_CampaignInputInternal(...).dict()] on the request, fields in declaration order. *)
Definition input_dict (r : api_input) : dict pyval :=
  [("business_type", PStr (business_type r));
   ("location", PStr (location r));
   ("goal_description", PStr (goal_description r));
   ("budget_min", opt_int (budget_min r));
   ("budget_max", opt_int (budget_max r));
   ("budget_fixed", opt_int (budget_fixed r));
   ("channel_preference", PStr (channel_preference r));
   ("user_id", PStr (user_id r))].

Definition allowed_channel_preferences : list string :=
  ["Online"; "Offline"; "Both"; "AI Recommend"].

(** The validator [check_channel_preference]. *)
Definition check_channel_preference (v : string) : bool :=
  existsb (String.eqb v) allowed_channel_preferences.

(** [d.get(k)] read as an int, [None] for a missing key or a Python [None]. *)
Definition int_field (d : dict pyval) (k : string) : option Z :=
  match dget d k with Some (PInt z) => Some z | _ => None end.

(** [d.pop(k, None)] *)
Definition dpop {V} (d : dict V) (k : string) : dict V :=
  filter (fun kv => negb (String.eqb (fst kv) k)) d.

Definition parse_input (raw : api_input) : outcome (dict pyval) :=
  if negb (check_channel_preference (channel_preference raw)) then
    Raise (ValueError
      "Input Parsing Failed: channel_preference must be one of ['Online', 'Offline', 'Both', 'AI Recommend']")
  else
    let cleaned := input_dict raw in
    let budget :=
      match int_field cleaned "budget_fixed" with
      | Some f => f
      | None =>
          match int_field cleaned "budget_min", int_field cleaned "budget_max" with
          | Some mn, Some mx => (mn + mx) / 2
          | Some mn, None => mn
          | None, _ => 5000
          end
      end in
    let cleaned := dset cleaned "budget" (PInt budget) in
    Ret (dpop (dpop (dpop cleaned "budget_min") "budget_max") "budget_fixed").

(** ** Step 7: Strategy Recommender *)

Inductive gen_result (A : Type) : Type :=
| GenError (details : string)
| GenOk (a : A).
Arguments GenError {A} details.
Arguments GenOk {A} a.

(** [isinstance(r, dict) and r.get("error")] *)
Definition is_gen_error {A} (r : gen_result A) : bool :=
  match r with GenError _ => true | GenOk _ => false end.

(** The parsed strategy JSON; a missing key reads as its [.get] default. *)
Record strategy : Type := {
  recommended_channels : list string;
  budget_split : dict Z;
  campaign_angle : option string
}.

(** The equal split of the fallback branch. *)
Definition equal_split (total_budget : Z) (channels : list string) : dict Z :=
  let n := Z.of_nat (length channels) in
  set_all [] (alloc_pairs (total_budget / n) (total_budget mod n) 0 channels).

(** Post-processing of [generate_strategy] on the parsed model output: the
    budget-split correction. An empty channel list in the fallback is the
    [ZeroDivisionError] that the function turns into an error object. *)
Definition strategy_postprocess (total_budget : Z) (result : strategy)
    : gen_result strategy :=
  match budget_split result with
  | [] => GenOk result
  | split =>
      let budget_diff := total_budget - dsum split in
      if budget_diff =? 0 then GenOk result
      else
        match py_max_key split with
        | None => GenOk result
        | Some largest =>
            let split' := dset split largest (dget0 split largest + budget_diff) in
            if dget0 split' largest <? 0 then
              match recommended_channels result with
              | [] => GenError "integer division or modulo by zero"
              | chans =>
                  GenOk {| recommended_channels := chans;
                           budget_split := equal_split total_budget chans;
                           campaign_angle := campaign_angle result |}
              end
            else
              GenOk {| recommended_channels := recommended_channels result;
                       budget_split := split';
                       campaign_angle := campaign_angle result |}
        end
  end.

(** ** Step 9 and the aggregator: copy keys *)

(** Field name of [create_creative_parser_and_prompt]. *)
Definition creative_key (channel : string) : string :=
  String.append
    (replace_char "."%char ""
      (replace_char "&"%char "and"
        (replace_char "-"%char "_"
          (replace_char " "%char "_" (py_lower channel)))))
    "_copy".

(** [channel_copy_key] of [run_pipeline]. *)
Definition aggregator_key (channel : string) : string :=
  String.append
    (replace_char "-"%char "_" (replace_char " "%char "_" (py_lower channel)))
    "_copy".

(** ** The pipeline driver [run_pipeline] *)

(** The persona JSON, an opaque object for the driver. *)
Definition persona := dict string.

(** The external collaborators of steps 2, 4, 5 and the text-generation
    calls of steps 6, 7, 9 and 10 (a failed call or unparsable output is
    [GenError]). *)
Record collaborators : Type := {
  extract_entities : string -> dict (list string);
  analyze_trends_via_search : list string -> string -> dict string;
  search_local_context : string -> string -> option string -> dict string;
  generate_persona : dict pyval -> dict (list string) -> dict string ->
                     dict string -> option string -> gen_result persona;
  strategy_llm : dict pyval -> persona -> dict string -> option string ->
                 gen_result strategy;
  creative_llm : string -> persona -> list string -> gen_result (dict string);
  generate_visual_prompts : string -> persona -> dict string -> gen_result (list string)
}.

(** Step 3 (mock): the [previous_campaign_summary] of the returned dict. *)
Definition get_previous_results (uid : string) : option string :=
  if String.eqb uid "user123_with_history" then
    Some "Last campaign (Diwali Sale): Facebook Ads (Budget: 3k INR, Clicks: 45, Conversions: 8, Rate: 17.8%), Pamphlets (Budget: 2k INR, Scans: 15, Conversions: 5, Rate: 33.3%). Pamphlets had higher Conversion Rate."
  else Some "No previous campaign data found.".

(** Step 7: the model call followed by the budget-split correction. *)
Definition generate_strategy (c : collaborators) (user_input : dict pyval)
    (p : persona) (ctx : dict string) (prev : option string) : gen_result strategy :=
  let total_budget :=
    match int_field user_input "budget" with Some b => b | None => 5000 end in
  match strategy_llm c user_input p ctx prev with
  | GenError d => GenError d
  | GenOk result => strategy_postprocess total_budget result
  end.

(** Step 9: no model call for an empty channel list; the model output is
    the [channel_copy] map. *)
Definition generate_creative (c : collaborators) (angle : string) (p : persona)
    (channels : list string) : gen_result (dict string) :=
  match channels with
  | [] => GenOk []
  | _ => creative_llm c angle p channels
  end.

Inductive stage : Type :=
| S_Parse | S_Entities | S_History | S_Trends | S_Context
| S_Persona | S_Strategy | S_Allocate | S_Creative | S_Visual | S_Aggregate.

(** A finished step and whether it returned an error object. *)
Definition event : Type := stage * bool.

(** Steps run in order, each appending its event to the trace, and a
    raised exception skips the rest. *)
Definition Pipe (A : Type) : Type := list event -> list event * outcome A.

Definition pret {A} (a : A) : Pipe A := fun tr => (tr, Ret a).
Definition pbind {A B} (m : Pipe A) (k : A -> Pipe B) : Pipe B :=
  fun tr => match m tr with
            | (tr', Ret a) => k a tr'
            | (tr', Raise e) => (tr', Raise e)
            end.
Definition pthrow {A} (e : py_exn) : Pipe A := fun tr => (tr, Raise e).
Definition pcatch {A} (m : Pipe A) (h : py_exn -> Pipe A) : Pipe A :=
  fun tr => match m tr with
            | (tr', Raise e) => h e tr'
            | r => r
            end.

Notation "x <- m ;; k" := (pbind m (fun x => k))
  (at level 61, m at next level, right associativity).

(** Run a step that returns a value and record it. *)
Definition step {A} (s : stage) (v : A) : Pipe A :=
  fun tr => (tr ++ [(s, false)], Ret v).

(** Run a generative step, record it with its error status, and raise
    [ValueError] on an error object, as the driver's checks do. *)
Definition fatal_step {A} (s : stage) (label : string) (r : gen_result A) : Pipe A :=
  fun tr =>
    let tr' := tr ++ [(s, is_gen_error r)] in
    match r with
    | GenOk a => (tr', Ret a)
    | GenError d => (tr', Raise (ValueError (String.append label d)))
    end.

Definition lift_parse (r : outcome (dict pyval)) : Pipe (dict pyval) :=
  fun tr =>
    match r with
    | Ret d => (tr ++ [(S_Parse, false)], Ret d)
    | Raise e => (tr ++ [(S_Parse, true)], Raise e)
    end.

Record channel_rec : Type := {
  channel_name : string;
  allocated_budget : Z;
  targeting_details : string;
  suggested_copy : string;
  visual_prompt : string;
  call_to_action : string;
  tracking_type : string
}.

Record overview : Type := {
  suggested_theme_name : string;
  strategic_angle : string;
  primary_target_audience : persona;
  timing_recommendation : string;
  competitor_note : string
}.

Record campaign_plan : Type := {
  campaign_overview : overview;
  channel_recommendations : list channel_rec;
  feedback_loop_note : string
}.

Definition str_get (d : dict string) (k dflt : string) : string :=
  match dget d k with Some s => s | None => dflt end.

(** One iteration of the channel loop. *)
Definition build_channel_rec (split : dict Z) (channel_copy : dict string)
    (visual_prompts : list string) (channel : string) : channel_rec :=
  let channel_copy_key := aggregator_key channel in
  {| channel_name := channel;
     allocated_budget := dget0 split channel;
     targeting_details := String.append "Targeting based on persona for " channel;
     suggested_copy := str_get channel_copy channel_copy_key "N/A";
     visual_prompt :=
       match visual_prompts with
       | v :: _ => v
       | [] => "No visual prompt generated."
       end;
     call_to_action := String.append "Engage via " (String.append channel "!");
     tracking_type :=
       if py_contains "Ads" channel || py_contains "Online" channel
       then "link" else "qr_code" |}.

Definition opt_default (o : option string) (d : string) : string :=
  match o with Some s => s | None => d end.

(** The float products of step 8, as in [Allocator]. *)
Record float_products : Type := {
  fp_mul_02 : Z -> Z;
  fp_mul_03 : Z -> Z;
  fp_scaled : Z -> Z -> Z -> Z
}.

Definition exact_products : float_products :=
  {| fp_mul_02 := exact_mul_02; fp_mul_03 := exact_mul_03; fp_scaled := exact_scaled |}.

(** [str(cleaned_input.get(k, ''))] on the string fields *)
Definition cleaned_str (ci : dict pyval) (k : string) : string :=
  match dget ci k with Some (PStr s) => s | _ => "" end.

(** [cleaned_input.get('budget', 0)] *)
Definition cleaned_budget (ci : dict pyval) : Z :=
  match int_field ci "budget" with Some b => b | None => 0 end.

Definition pipeline_body (fp : float_products) (c : collaborators) (raw : api_input)
    : Pipe campaign_plan :=
  cleaned_input <- lift_parse (parse_input raw) ;;
  let str_field := cleaned_str cleaned_input in
  entities <- step S_Entities (extract_entities c (str_field "goal_description")) ;;
  previous_results <- step S_History (get_previous_results (str_field "user_id")) ;;
  let list_get k := match dget entities k with Some l => l | None => [] end in
  trend_data <- step S_Trends
    (analyze_trends_via_search c (list_get "products_services" ++ list_get "misc_keywords")
       (str_field "location")) ;;
  let first_event := match list_get "events" with e :: _ => Some e | [] => None end in
  local_context <- step S_Context
    (search_local_context c (str_field "location") (str_field "business_type") first_event) ;;
  audience_persona <- fatal_step S_Persona "Persona Generation Failed: "
    (generate_persona c cleaned_input entities trend_data local_context previous_results) ;;
  campaign_strategy <- fatal_step S_Strategy "Strategy Generation Failed: "
    (generate_strategy c cleaned_input audience_persona local_context previous_results) ;;
  let channels := recommended_channels campaign_strategy in
  let budget := cleaned_budget cleaned_input in
  budget_split <- step S_Allocate
    (allocate_budget (fp_mul_02 fp) (fp_mul_03 fp) (fp_scaled fp)
       budget channels previous_results) ;;
  let angle := opt_default (campaign_angle campaign_strategy) "Default Angle" in
  creative_content <- fatal_step S_Creative "Creative Generation Failed: "
    (generate_creative c angle audience_persona channels) ;;
  visual_prompts <- fatal_step S_Visual "Visual Prompt Generation Failed: "
    (generate_visual_prompts c angle audience_persona creative_content) ;;
  step S_Aggregate
    {| campaign_overview :=
         {| suggested_theme_name :=
              opt_default (campaign_angle campaign_strategy) "Generated Campaign";
            strategic_angle := opt_default (campaign_angle campaign_strategy) "N/A";
            primary_target_audience := audience_persona;
            timing_recommendation := str_get trend_data "timing_recommendation" "N/A";
            competitor_note := str_get local_context "competitor_types_summary" "N/A" |};
       channel_recommendations :=
         map (build_channel_rec budget_split creative_content visual_prompts) channels;
       feedback_loop_note := opt_default previous_results "No past data used." |}.

(** The HTTP answer: the validated plan, or the status and detail of an
    [HTTPException]. The final [CampaignPlan(...)] validation accepts every
    plan built by the aggregation (each field has the declared type). *)
Inductive response : Type :=
| PlanResponse (p : campaign_plan)
| ErrorResponse (status_code : Z) (detail : string).

Definition run_pipeline (fp : float_products) (c : collaborators) (raw : api_input)
    : list event * response :=
  let guarded :=
    pcatch (pipeline_body fp c raw)
      (fun e => match e with
                | ValueError msg => pthrow (HTTPException 500 msg)
                | HTTPException s d => pthrow (HTTPException s d)
                end) in
  match guarded [] with
  | (tr, Ret p) => (tr, PlanResponse p)
  | (tr, Raise (HTTPException s d)) => (tr, ErrorResponse s d)
  | (tr, Raise (ValueError msg)) => (tr, ErrorResponse 500 msg)
  end.

(** A sample run: the collaborators answer with fixed values. *)
Definition sample_request : api_input :=
  {| business_type := "cafe"; location := "Pune";
     goal_description := "Diwali discount sale";
     budget_min := None; budget_max := None; budget_fixed := Some 6000;
     channel_preference := "Both"; user_id := "user123_with_history" |}.

Definition sample_collaborators (st : gen_result strategy) (pe : gen_result persona)
    (cr : gen_result (dict string)) (vi : gen_result (list string)) : collaborators :=
  {| extract_entities := fun _ => [("events", ["diwali"]); ("misc_keywords", ["discount"; "sale"])];
     analyze_trends_via_search := fun _ _ => [("timing_recommendation", "Start early")];
     search_local_context := fun _ _ _ => [("competitor_types_summary", "Many cafes")];
     generate_persona := fun _ _ _ _ _ => pe;
     strategy_llm := fun _ _ _ _ => st;
     creative_llm := fun _ _ _ => cr;
     generate_visual_prompts := fun _ _ _ => vi |}.

Definition sample_strategy : strategy :=
  {| recommended_channels := ["Facebook Ads"; "Pamphlets"];
     budget_split := [("Facebook Ads", 4000); ("Pamphlets", 1000)];
     campaign_angle := Some "Diwali Glow" |}.

Definition sample_persona : persona :=
  [("segment_name", "College students"); ("description", "Budget-minded")].

Definition sample_run : list event * response :=
  run_pipeline exact_products
    (sample_collaborators (GenOk sample_strategy) (GenOk sample_persona)
       (GenOk [("facebook_ads_copy", "Scan for 10% off")]) (GenOk ["A lit cafe"; "A cup"]))
    sample_request.

Definition empty_plan : campaign_plan :=
  {| campaign_overview := {| suggested_theme_name := ""; strategic_angle := "";
                             primary_target_audience := []; timing_recommendation := "";
                             competitor_note := "" |};
     channel_recommendations := []; feedback_loop_note := "" |}.

Definition plan_of (r : list event * response) : campaign_plan :=
  match snd r with PlanResponse p => p | ErrorResponse _ _ => empty_plan end.

Definition sample_plan : campaign_plan := plan_of sample_run.

(** A run whose strategy recommends a channel with an ampersand, and whose
    creative step answers under the key it was asked for. *)
Definition banner_run : list event * response :=
  run_pipeline exact_products
    (sample_collaborators
       (GenOk {| recommended_channels := ["Banner & Signage"];
                 budget_split := [("Banner & Signage", 6000)];
                 campaign_angle := Some "Festive" |})
       (GenOk sample_persona)
       (GenOk [(creative_key "Banner & Signage", "Visit [Shop Name] this Diwali")])
       (GenOk ["A festive banner"]))
    sample_request.

Definition request_with (pref : string) (fixed mn mx : option Z) : api_input :=
  {| business_type := "cafe"; location := "Pune"; goal_description := "Diwali sale";
     budget_min := mn; budget_max := mx; budget_fixed := fixed;
     channel_preference := pref; user_id := "u1" |}.

(** The cleaned input of [sample_request]. *)
Definition sample_cleaned : dict pyval :=
  match parse_input sample_request with Ret d => d | Raise _ => [] end.

(** A run on a negative fixed budget. *)
Definition negative_request : api_input := request_with "Both" (Some (-100)) None None.

Definition negative_run : list event * response :=
  run_pipeline exact_products
    (sample_collaborators (GenOk sample_strategy) (GenOk sample_persona)
       (GenOk [("facebook_ads_copy", "Scan for 10% off")]) (GenOk ["A lit cafe"; "A cup"]))
    negative_request.

Definition negative_cleaned : dict pyval :=
  match parse_input negative_request with Ret d => d | Raise _ => [] end.

(** A run whose persona step fails. *)
Definition persona_error_run : list event * response :=
  run_pipeline exact_products
    (sample_collaborators (GenOk sample_strategy) (GenError "quota exceeded")
       (GenOk []) (GenOk []))
    sample_request.

Definition error_status (r : list event * response) : Z :=
  match snd r with ErrorResponse s _ => s | PlanResponse _ => 0 end.

Definition error_detail (r : list event * response) : string :=
  match snd r with ErrorResponse _ d => d | PlanResponse _ => EmptyString end.

(** [sum(...)] of a list of integers *)
Definition zsum (l : list Z) : Z := fold_right Z.add 0 l.

(** ** Steps 4 and 5: web search and the search summaries *)

(** [sep.join(l)] *)
Fixpoint py_join (sep : string) (l : list string) : string :=
  match l with
  | [] => EmptyString
  | [x] => x
  | x :: t => String.append x (String.append sep (py_join sep t))
  end.

Fixpoint drop_spaces (l : list ascii) : list ascii :=
  match l with
  | [] => []
  | c :: t => if is_py_space c then drop_spaces t else l
  end.

(** [s.strip()] on ASCII text *)
Definition py_strip (s : string) : string :=
  string_of_list_ascii (rev (drop_spaces (rev (drop_spaces (list_ascii_of_string s))))).

Definition newline : string := String (ascii_of_nat 10) EmptyString.

Fixpoint dec_digits (fuel : nat) (n : Z) (acc : string) : string :=
  match fuel with
  | O => acc
  | S f =>
      let acc' := String (ascii_of_nat (48 + Z.to_nat (n mod 10))) acc in
      if n <? 10 then acc' else dec_digits f (n / 10) acc'
  end.

(** [str(n)] for an integer *)
Definition py_str_int (n : Z) : string :=
  if n <? 0 then String "-" (dec_digits (S (Z.to_nat (Z.log2 (- n)))) (- n) EmptyString)
  else dec_digits (S (Z.to_nat (Z.log2 n))) n EmptyString.

(** What a Serper call gives: no API key configured, an HTTP error status
    ([raise_for_status]), a request error, any other exception, or the
    parsed JSON: the [answerBox] ([snippet] and [answer], empty when
    missing) and the [snippet] of each [organic] item (empty when missing). *)
Inductive serper_result : Type :=
| NoApiKey
| HttpStatusError (status_code : Z)
| RequestError
| OtherError
| SerperJson (answer_box : option (string * string)) (organic : option (list string)).

(** [snippets], before [filter(None, ...)] *)
Definition serper_snippets (answer_box : option (string * string))
    (organic : option (list string)) : list string :=
  match answer_box with
  | Some (snippet, answer) => [if String.eqb snippet EmptyString then answer else snippet]
  | None => []
  end ++
  match organic with
  | Some items => firstn 3 items
  | None => []
  end.

(** [joined_snippets] *)
Definition joined_snippets (answer_box : option (string * string))
    (organic : option (list string)) : string :=
  py_join newline
    (filter (fun s => negb (String.eqb s EmptyString)) (serper_snippets answer_box organic)).

(** Step 5: [search_google] *)
Definition search_google (r : serper_result) : string :=
  match r with
  | NoApiKey => "Search API key not configured."
  | HttpStatusError code => String.append "Search failed with status: " (py_str_int code)
  | RequestError => "Search request failed."
  | OtherError => "Unexpected error during search."
  | SerperJson ab org =>
      let j := joined_snippets ab org in
      if String.eqb j EmptyString then "No relevant search result snippets found." else j
  end.

(** Step 4: [search_google_trends_helper]; every exception gives one text. *)
Definition search_google_trends_helper (r : serper_result) : string :=
  match r with
  | NoApiKey => "Search API key not configured."
  | HttpStatusError _ | RequestError | OtherError => "Search request failed."
  | SerperJson ab org =>
      let j := joined_snippets ab org in
      if String.eqb j EmptyString then "No relevant search result snippets found." else j
  end.

(** The guard of step 5 on a search text before it is summarized. *)
Definition snippets_usable (s : string) : bool :=
  negb (String.eqb s EmptyString)
  && negb (py_contains "failed" (py_lower s))
  && negb (py_contains "configured" (py_lower s))
  && negb (py_contains "found" (py_lower s)).

(** The environment of step 5: the search outcome of each query, and the
    summary chain when the model is configured (a call answers its text or
    raises an exception, given by its type name). *)
Record context_env : Type := {
  context_web : string -> serper_result;
  search_chain : option (string -> string -> gen_result string)
}.

(** [if event:] on an optional string *)
Definition py_truthy_opt (o : option string) : option string :=
  match o with
  | Some e => if String.eqb e EmptyString then None else Some e
  | None => None
  end.

Definition event_query (location : string) (event : option string) : string :=
  String.append (String.append "major local events festivals happening in " location)
    (match py_truthy_opt event with
     | Some e => String.append " around " e
     | None => EmptyString
     end).

Definition competitor_query (location business_type : string) : string :=
  String.append "types of competitors for a "
    (String.append business_type (String.append " in " location)).

(** One of the two summaries of [search_local_context]. *)
Definition summarize_snippets (chain : option (string -> string -> gen_result string))
    (snippets query dflt unavailable err_prefix : string) : string :=
  match chain with
  | Some ch =>
      if snippets_usable snippets then
        match ch snippets query with
        | GenOk t => t
        | GenError exn_name => String.append err_prefix exn_name
        end
      else dflt
  | None => unavailable
  end.

(** Step 5: [search_local_context]. [search_google] catches every
    exception, so the [asyncio.gather] fallback is never taken. *)
Definition search_local_context_py (env : context_env) (location business_type : string)
    (event : option string) : dict string :=
  let event_snippets := search_google (context_web env (event_query location event)) in
  let competitor_snippets :=
    search_google (context_web env (competitor_query location business_type)) in
  let event_summary :=
    summarize_snippets (search_chain env) event_snippets
      (String.append "Summarize the main local events or festivals mentioned for "
         (String.append location " based on the snippets."))
      "No specific events found or search/LLM failed."
      "LLM chain unavailable for event summary."
      "Error summarizing event search results: " in
  let competitor_summary :=
    summarize_snippets (search_chain env) competitor_snippets
      (String.append "Briefly list the main types of competitors mentioned for a "
         (String.append business_type
            (String.append " in " (String.append location " based on the snippets."))))
      "Could not determine competitor types or search/LLM failed."
      "LLM chain unavailable for competitor summary."
      "Error summarizing competitor search results: " in
  [("local_events_summary", py_strip event_summary);
   ("competitor_types_summary", py_strip competitor_summary)].

(** The environment of step 4: the search outcome of each query, and the
    trend chain (topic, location, search results) when the model is
    configured. *)
Record trends_env : Type := {
  trends_web : string -> serper_result;
  trend_summary_chain : option (string -> string -> string -> gen_result string)
}.

(** The returned dict: [timing_recommendation] and [related_queries]. *)
Record trend_output : Type := {
  trend_timing : string;
  trend_related_queries : list string
}.

(** Step 4: [analyze_trends_via_search]; every keyword is a string, and the
    helper catches every exception, so the [asyncio.gather] fallback is
    never taken. *)
Definition analyze_trends_via_search_py (env : trends_env) (keywords : list string)
    (location : string) (event : option string) : trend_output :=
  match keywords with
  | [] => {| trend_timing := "No keywords provided."; trend_related_queries := [] |}
  | _ =>
      let combined_keywords := py_join " " (firstn 3 keywords) in
      let timing_query :=
        String.append "best time marketing campaign "
          (String.append combined_keywords
             (String.append " "
                (String.append (match py_truthy_opt event with Some e => e | None => EmptyString end)
                   (String.append " in " location)))) in
      let interest_query :=
        String.append "latest news "
          (String.append combined_keywords (String.append " offers promotions in " location)) in
      let timing_snippets := search_google_trends_helper (trends_web env timing_query) in
      let interest_snippets := search_google_trends_helper (trends_web env interest_query) in
      let all_snippets :=
        (* [(t or '')] is [t] on a string *)
        py_strip (String.append timing_snippets (String.append newline interest_snippets)) in
      if String.eqb all_snippets EmptyString then
        {| trend_timing := "No valid search results found."; trend_related_queries := [] |}
      else
        let timing_rec :=
          match trend_summary_chain env with
          | Some ch =>
              match ch combined_keywords location all_snippets with
              | GenOk t => py_strip t
              | GenError _ => "Error summarizing trend search results."
              end
          | None => "LLM not available for trend summary."
          end in
        {| trend_timing := timing_rec; trend_related_queries := [] |}
  end.

(** ** Step 2: NER extractor *)

(** The spaCy analysis of the goal: its entities (label and text) and its
    tokens (part of speech, stop word flag, lemma and text). *)
Record ner_span : Type := { ent_label : string; ent_text : string }.
Record ner_token : Type := {
  tok_pos : string; tok_is_stop : bool; tok_lemma : string; tok_text : string
}.
Record nlp_doc : Type := { doc_ents : list ner_span; doc_tokens : list ner_token }.

(** The returned dict: the error dict, or lists of strings by category. *)
Inductive ner_output : Type :=
| NerError (error : string)
| NerEntities (entities : dict (list string)).

(** [a < b] on strings: code points, lexicographically *)
Fixpoint str_ltb (a b : string) : bool :=
  match a, b with
  | EmptyString, EmptyString => false
  | EmptyString, String _ _ => true
  | String _ _, EmptyString => false
  | String x a', String y b' =>
      if Nat.ltb (nat_of_ascii x) (nat_of_ascii y) then true
      else if Ascii.eqb x y then str_ltb a' b' else false
  end.

Fixpoint insert_uniq (x : string) (l : list string) : list string :=
  match l with
  | [] => [x]
  | y :: t =>
      if String.eqb x y then l
      else if str_ltb x y then x :: l
      else y :: insert_uniq x t
  end.

(** [sorted(list(set(l)))] *)
Definition sorted_set (l : list string) : list string := fold_right insert_uniq [] l.

Fixpoint str_increasing (l : list string) : bool :=
  match l with
  | x :: ((y :: _) as t) => str_ltb x y && str_increasing t
  | _ => true
  end.

Definition ner_categories : list string :=
  ["locations"; "events"; "products_services"; "target_groups"; "dates_times"; "orgs";
   "misc_keywords"].

Definition ner_initial : dict (list string) := map (fun k => (k, [])) ner_categories.

(** [entities[k]] on a key holding a list *)
Definition list_at (d : dict (list string)) (k : string) : list string :=
  match dget d k with Some l => l | None => [] end.

(** [entities[k].append(x)] *)
Definition append_at (d : dict (list string)) (k x : string) : dict (list string) :=
  dset d k (list_at d k ++ [x]).

(** [x in l] *)
Definition str_mem (x : string) (l : list string) : bool := existsb (String.eqb x) l.

Definition entity_category (label : string) : option string :=
  if str_mem label ["GPE"; "LOC"] then Some "locations"
  else if String.eqb label "EVENT" then Some "events"
  else if String.eqb label "PRODUCT" then Some "products_services"
  else if str_mem label ["PERSON"; "NORP"] then Some "target_groups"
  else if str_mem label ["DATE"; "TIME"] then Some "dates_times"
  else if String.eqb label "ORG" then Some "orgs"
  else None.

(** One iteration of the loop over [doc.ents]; [processed_texts] is a list. *)
Definition ner_entity_step (st : dict (list string) * list string) (ent : ner_span)
    : dict (list string) * list string :=
  let '(d, processed) := st in
  let text := py_lower (py_strip (ent_text ent)) in
  if String.eqb text EmptyString || str_mem text processed then (d, processed)
  else
    let processed := text :: processed in
    match entity_category (ent_label ent) with
    | Some k => (append_at d k text, processed)
    | None => (d, processed)
    end.

Definition is_offer_term (keyword text : string) : bool :=
  py_contains "discount" keyword || py_contains "sale" keyword
  || py_contains "offer" keyword || py_contains "%" text.

(** One iteration of the loop over the tokens. *)
Definition ner_token_step (st : dict (list string) * list string) (tok : ner_token)
    : dict (list string) * list string :=
  let '(d, processed) := st in
  if str_mem (tok_pos tok) ["NOUN"; "PROPN"] && negb (tok_is_stop tok)
     && negb (str_mem (py_lower (tok_lemma tok)) processed) then
    let keyword := py_lower (tok_lemma tok) in
    let d := append_at d "misc_keywords" keyword in
    let processed := keyword :: processed in
    if is_offer_term keyword (tok_text tok) then
      let d := match dget d "offer_terms" with Some _ => d | None => dset d "offer_terms" [] end in
      (append_at d "offer_terms" (tok_text tok), processed)
    else (d, processed)
  else (d, processed).

(** Step 2: [extract_entities], the spaCy model given as [nlp] when it
    loaded. *)
Definition extract_entities_py (nlp : option (string -> nlp_doc)) (goal_description : string)
    : ner_output :=
  match nlp with
  | None => NerError "spaCy model not available"
  | Some parse =>
      if String.eqb (py_strip goal_description) EmptyString then NerEntities []
      else
        let doc := parse goal_description in
        let st := fold_left ner_entity_step (doc_ents doc) (ner_initial, []) in
        let '(d, _) := fold_left ner_token_step (doc_tokens doc) st in
        NerEntities (map (fun kv => (fst kv, sorted_set (snd kv))) d)
  end.

(** A state of the two loops in which every text of the seven categories
    has been processed and no text sits in two categories. *)
Definition ner_inv (st : dict (list string) * list string) : Prop :=
  (forall k x, In k ner_categories -> In x (list_at (fst st) k) -> In x (snd st)) /\
  (forall k1 k2 x, In k1 ner_categories -> In k2 ner_categories -> k1 <> k2 ->
     In x (list_at (fst st) k1) -> In x (list_at (fst st) k2) -> False).

(** An analysis of "Diwali discount sale in Pune for students". *)
Definition sample_doc : nlp_doc :=
  {| doc_ents := [{| ent_label := "EVENT"; ent_text := "Diwali" |};
                  {| ent_label := "GPE"; ent_text := "Pune " |};
                  {| ent_label := "EVENT"; ent_text := "diwali" |}];
     doc_tokens := [{| tok_pos := "PROPN"; tok_is_stop := false; tok_lemma := "Diwali"; tok_text := "Diwali" |};
                    {| tok_pos := "NOUN"; tok_is_stop := false; tok_lemma := "discount"; tok_text := "discount" |};
                    {| tok_pos := "NOUN"; tok_is_stop := false; tok_lemma := "sale"; tok_text := "sale" |};
                    {| tok_pos := "NOUN"; tok_is_stop := false; tok_lemma := "student"; tok_text := "students" |}] |}.

(** The outcomes for which [search_google] answers one of its fixed
    failure texts. *)
Definition search_gave_no_text (r : serper_result) : Prop :=
  r = NoApiKey \/ (exists code, r = HttpStatusError code) \/ r = RequestError \/
  (exists ab org, r = SerperJson ab org /\ joined_snippets ab org = EmptyString).

(** A search environment where every call raises an unexpected exception,
    and a summary chain that echoes the snippets. *)
Definition failing_context_env : context_env :=
  {| context_web := fun _ => OtherError; search_chain := Some (fun s _ => GenOk s) |}.


Definition failing_trends_env : trends_env :=
  {| trends_web := fun q => if py_contains "latest" q then RequestError else HttpStatusError 429;
     trend_summary_chain := Some (fun _ _ s => GenOk s) |}.

(** The collaborators of [sample_run]. *)
Definition sample_ok : collaborators :=
  sample_collaborators (GenOk sample_strategy) (GenOk sample_persona)
    (GenOk [("facebook_ads_copy", "Scan for 10% off")]) (GenOk ["A lit cafe"; "A cup"]).

(** A request whose channel preference is misspelt. *)
Definition misspelt_request : api_input := request_with "AIRecommend" None None None.

(** The prefixes the driver gives the error of each generative step. *)
Definition fatal_labels : list (stage * string) :=
  [(S_Persona, "Persona Generation Failed: ");
   (S_Strategy, "Strategy Generation Failed: ");
   (S_Creative, "Creative Generation Failed: ");
   (S_Visual, "Visual Prompt Generation Failed: ")].

(** * Properties *)

(** ** Input parser *)

Lemma parse_input_shape (raw : api_input) (out : dict pyval) :
  parse_input raw = Ret out ->
  check_channel_preference (channel_preference raw) = true /\
  out = [("business_type", PStr (business_type raw));
         ("location", PStr (location raw));
         ("goal_description", PStr (goal_description raw));
         ("channel_preference", PStr (channel_preference raw));
         ("user_id", PStr (user_id raw));
         ("budget", PInt (match budget_fixed raw with
                          | Some f => f
                          | None =>
                              match budget_min raw, budget_max raw with
                              | Some mn, Some mx => (mn + mx) / 2
                              | Some mn, None => mn
                              | None, _ => 5000
                              end
                          end))].
Proof.
  unfold parse_input.
  destruct (check_channel_preference (channel_preference raw)) eqn:Hc;
    simpl; [|discriminate].
  intro H; injection H as <-; split; [reflexivity|].
  destruct raw as [bt lo gd mn mx fx cp uid]; simpl.
  destruct fx, mn, mx; reflexivity.
Qed.

Lemma check_channel_preference_In (v : string) :
  check_channel_preference v = true <-> In v ["Online"; "Offline"; "Both"; "AI Recommend"].
Proof.
  unfold check_channel_preference, allowed_channel_preferences.
  rewrite existsb_exists. split.
  - intros [x [Hin Heq]]. apply String.eqb_eq in Heq. subst x. exact Hin.
  - intros Hin. exists v. split; [exact Hin | apply String.eqb_refl].
Qed.

(** C7 (as amended): [parse_input] rejects a request (whose other fields are
    present and well-typed) exactly when [channel_preference] is not one of
    "Online", "Offline", "Both", "AI Recommend" (with a space). *)
Theorem parse_input_rejects_iff (raw : api_input) :
  (exists e, parse_input raw = Raise e) <->
  ~ In (channel_preference raw) ["Online"; "Offline"; "Both"; "AI Recommend"].
Proof.
  rewrite <- check_channel_preference_In. unfold parse_input.
  destruct (check_channel_preference (channel_preference raw)); simpl.
  - split; [intros [e He]; discriminate | intros Hn; exfalso; apply Hn; reflexivity].
  - split; [intros _; discriminate | intros _; eexists; reflexivity].
Qed.

(** C7 (counterexample): the value "AIRecommend" of the spec's enum is
    rejected, so "rejected iff not one of Online, Offline, Both,
    AIRecommend" fails. *)
Lemma parse_input_rejects_AIRecommend :
  ~ (forall raw : api_input,
       (exists e, parse_input raw = Raise e) <->
       ~ In (channel_preference raw) ["Online"; "Offline"; "Both"; "AIRecommend"]).
Proof.
  intros H.
  destruct (H (request_with "AIRecommend" (Some 6000) None None)) as [H1 _].
  apply H1; [eexists; reflexivity | simpl; tauto].
Qed.

(** C8: an accepted request gets its budget by priority: budget_fixed, else
    the floor of (budget_min + budget_max) / 2, else budget_min, else 5000;
    the three raw budget fields are gone from the returned map. *)
Theorem parse_input_budget_priority (raw : api_input) (out : dict pyval) :
  parse_input raw = Ret out ->
  dget out "budget" =
    Some (PInt (match budget_fixed raw with
                | Some f => f
                | None =>
                    match budget_min raw, budget_max raw with
                    | Some mn, Some mx => (mn + mx) / 2
                    | Some mn, None => mn
                    | None, _ => 5000
                    end
                end)) /\
  dget out "budget_min" = None /\
  dget out "budget_max" = None /\
  dget out "budget_fixed" = None.
Proof.
  intros H. destruct (parse_input_shape raw out H) as [_ ->].
  repeat split; reflexivity.
Qed.

Lemma parse_input_budget_priority_witness :
  parse_input (request_with "Both" None (Some 1000) (Some 3001))
    = Ret [("business_type", PStr "cafe"); ("location", PStr "Pune");
           ("goal_description", PStr "Diwali sale"); ("channel_preference", PStr "Both");
           ("user_id", PStr "u1"); ("budget", PInt 2000)] /\
  dget [("business_type", PStr "cafe"); ("location", PStr "Pune");
        ("goal_description", PStr "Diwali sale"); ("channel_preference", PStr "Both");
        ("user_id", PStr "u1"); ("budget", PInt 2000)] "budget" = Some (PInt 2000).
Proof.
  split; [reflexivity|].
  apply (proj1 (parse_input_budget_priority (request_with "Both" None (Some 1000) (Some 3001)) _
                  eq_refl)).
Defined.

(** C9 (as amended): the resolved budget of an accepted request is an
    integer, non-negative when every budget field it supplies is
    non-negative. *)
Theorem parse_input_budget_nonneg (raw : api_input) (out : dict pyval) :
  parse_input raw = Ret out ->
  (forall z, budget_fixed raw = Some z -> 0 <= z) ->
  (forall z, budget_min raw = Some z -> 0 <= z) ->
  (forall z, budget_max raw = Some z -> 0 <= z) ->
  exists b, dget out "budget" = Some (PInt b) /\ 0 <= b.
Proof.
  intros H Hf Hmn Hmx. destruct (parse_input_shape raw out H) as [_ ->].
  eexists; split; [reflexivity|].
  destruct (budget_fixed raw) as [f|]; [apply Hf; reflexivity|].
  destruct (budget_min raw) as [mn|], (budget_max raw) as [mx|].
  - pose proof (Hmn mn eq_refl). pose proof (Hmx mx eq_refl).
    apply Z.div_pos; lia.
  - apply Hmn; reflexivity.
  - lia.
  - lia.
Qed.

Lemma parse_input_budget_nonneg_witness :
  exists b, dget [("business_type", PStr "cafe"); ("location", PStr "Pune");
                  ("goal_description", PStr "Diwali sale"); ("channel_preference", PStr "Online");
                  ("user_id", PStr "u1"); ("budget", PInt 7000)] "budget" = Some (PInt b)
            /\ 0 <= b.
Proof.
  apply (parse_input_budget_nonneg (request_with "Online" (Some 7000) (Some 1000) None));
    [reflexivity | intros z Hz; injection Hz as <-; lia
    | intros z Hz; injection Hz as <-; lia | intros z Hz; discriminate].
Defined.

(** C9 (counterexample): [budget_fixed = -100] is accepted and resolves to
    the negative budget -100. *)
Lemma parse_input_negative_budget :
  ~ (forall (raw : api_input) (out : dict pyval),
       parse_input raw = Ret out ->
       exists b, dget out "budget" = Some (PInt b) /\ 0 <= b).
Proof.
  intros H.
  destruct (H (request_with "Both" (Some (-100)) None None) _ eq_refl) as [b [Hb Hle]].
  simpl in Hb. injection Hb as <-. lia.
Qed.

(** ** Pipeline driver *)

Ltac split_gen_results :=
  repeat match goal with
         | |- context [match ?x with GenOk _ => _ | GenError _ => _ end] => destruct x
         end.

(** A plan returned by the driver is the channel loop over the strategy's
    channels, with the allocator's split. *)
Lemma run_pipeline_plan (fp : float_products) (c : collaborators) (raw : api_input)
    (tr : list event) (p : campaign_plan) :
  run_pipeline fp c raw = (tr, PlanResponse p) ->
  exists ci copy vps st,
    parse_input raw = Ret ci /\
    channel_recommendations p =
      map (build_channel_rec
             (allocate_budget (fp_mul_02 fp) (fp_mul_03 fp) (fp_scaled fp)
                (cleaned_budget ci) (recommended_channels st)
                (get_previous_results (cleaned_str ci "user_id"))) copy vps)
          (recommended_channels st).
Proof.
  unfold run_pipeline, pcatch, pipeline_body, pbind, step, fatal_step, lift_parse.
  destruct (parse_input raw) as [ci|e] eqn:Hp; [|destruct e; discriminate].
  split_gen_results; simpl; intro H; try discriminate.
  injection H as <- <-. simpl. do 4 eexists; split; reflexivity.
Qed.

(** C10: in every plan, a channel's tracking type is "link" exactly when its
    name contains "Ads" or "Online", and "qr_code" otherwise. *)
Theorem plan_tracking_type (fp : float_products) (c : collaborators) (raw : api_input)
    (tr : list event) (p : campaign_plan) :
  run_pipeline fp c raw = (tr, PlanResponse p) ->
  Forall (fun r => tracking_type r =
                   if py_contains "Ads" (channel_name r) || py_contains "Online" (channel_name r)
                   then "link" else "qr_code")
         (channel_recommendations p).
Proof.
  intros H. destruct (run_pipeline_plan fp c raw tr p H) as (ci & copy & vps & st & _ & ->).
  apply Forall_forall. intros r Hr. apply in_map_iff in Hr as (ch & <- & _).
  reflexivity.
Qed.

Lemma plan_tracking_type_witness :
  sample_run = (fst sample_run, PlanResponse sample_plan) /\
  Forall (fun r => tracking_type r =
                   if py_contains "Ads" (channel_name r) || py_contains "Online" (channel_name r)
                   then "link" else "qr_code")
         (channel_recommendations sample_plan).
Proof.
  split; [vm_compute; reflexivity|].
  apply (plan_tracking_type exact_products
           (sample_collaborators (GenOk sample_strategy) (GenOk sample_persona)
              (GenOk [("facebook_ads_copy", "Scan for 10% off")]) (GenOk ["A lit cafe"; "A cup"]))
           sample_request (fst sample_run)).
  vm_compute. reflexivity.
Defined.

(** C2 (as amended): each channel's allocated budget in the plan is looked
    up in the split of the Budget Allocator, run on the parsed budget, the
    plan's channels and the user's history; the Strategy Recommender's
    split is not read. *)
Theorem plan_budget_from_allocator (fp : float_products) (c : collaborators)
    (raw : api_input) (tr : list event) (p : campaign_plan) :
  run_pipeline fp c raw = (tr, PlanResponse p) ->
  exists ci, parse_input raw = Ret ci /\
    map allocated_budget (channel_recommendations p) =
    map (dget0 (allocate_budget (fp_mul_02 fp) (fp_mul_03 fp) (fp_scaled fp)
                  (cleaned_budget ci) (map channel_name (channel_recommendations p))
                  (get_previous_results (user_id raw))))
        (map channel_name (channel_recommendations p)).
Proof.
  intros H. destruct (run_pipeline_plan fp c raw tr p H) as (ci & copy & vps & st & Hp & ->).
  exists ci. split; [exact Hp|].
  destruct (parse_input_shape raw ci Hp) as [_ Hci].
  assert (Hu : cleaned_str ci "user_id" = user_id raw) by (rewrite Hci; reflexivity).
  rewrite Hu, !map_map. simpl. rewrite map_id. reflexivity.
Qed.

Lemma plan_budget_from_allocator_witness :
  exists ci, parse_input sample_request = Ret ci /\
    map allocated_budget (channel_recommendations sample_plan) =
    map (dget0 (allocate_budget exact_mul_02 exact_mul_03 exact_scaled
                  (cleaned_budget ci) (map channel_name (channel_recommendations sample_plan))
                  (get_previous_results (user_id sample_request))))
        (map channel_name (channel_recommendations sample_plan)).
Proof.
  apply (plan_budget_from_allocator exact_products
           (sample_collaborators (GenOk sample_strategy) (GenOk sample_persona)
              (GenOk [("facebook_ads_copy", "Scan for 10% off")]) (GenOk ["A lit cafe"; "A cup"]))
           sample_request (fst sample_run)).
  vm_compute. reflexivity.
Defined.

(** C2 (counterexample): the strategy's corrected split gives Facebook Ads
    5000 and Pamphlets 1000 on a 6000 budget, the plan gives 3000 each. *)
Lemma plan_budget_not_strategy_split :
  exists tr p st,
    sample_run = (tr, PlanResponse p) /\
    strategy_postprocess 6000 sample_strategy = GenOk st /\
    map channel_name (channel_recommendations p) = recommended_channels st /\
    map allocated_budget (channel_recommendations p) = [3000; 3000] /\
    map (dget0 (budget_split st)) (recommended_channels st) = [5000; 1000].
Proof.
  exists (fst sample_run), sample_plan.
  eexists. split; [vm_compute; reflexivity|].
  split; [vm_compute; reflexivity|].
  repeat split; vm_compute; reflexivity.
Qed.

(** C3 (code bug): the Creative Writer names the field of "Banner & Signage"
    "banner_and_signage_copy", the aggregator looks up
    "banner_&_signage_copy", so the generated copy is reported as "N/A". *)
Theorem copy_key_drift :
  creative_key "Banner & Signage" = "banner_and_signage_copy" /\
  aggregator_key "Banner & Signage" = "banner_&_signage_copy" /\
  (exists p, snd banner_run = PlanResponse p /\
             map suggested_copy (channel_recommendations p) = ["N/A"]).
Proof.
  split; [reflexivity|]. split; [reflexivity|].
  eexists. split; vm_compute; reflexivity.
Qed.

(** C5: when the Persona, Strategy, Creative or Visual step returns an error
    object, the request is answered with one HTTP 500 error and that step is
    the last one the pipeline ran. *)
Theorem fatal_step_halts (fp : float_products) (c : collaborators) (raw : api_input)
    (tr : list event) (r : response) (s : stage) :
  run_pipeline fp c raw = (tr, r) ->
  In s [S_Persona; S_Strategy; S_Creative; S_Visual] ->
  In (s, true) tr ->
  (exists d, r = ErrorResponse 500 d) /\ (exists pre, tr = pre ++ [(s, true)]).
Proof.
  unfold run_pipeline, pcatch, pipeline_body, pbind, step, fatal_step, lift_parse.
  destruct (parse_input raw) as [ci|e] eqn:Hp; [|destruct e];
    split_gen_results; simpl; intros H Hs Hin; injection H as <- <-;
    simpl in Hin;
    repeat match goal with
           | H : _ \/ _ |- _ => destruct H as [H|H]
           | H : (_, _) = (_, _) |- _ => inversion H; subst; clear H
           | H : False |- _ => contradiction
           end;
    try discriminate; try (simpl in Hs; intuition discriminate);
    (split; [eexists; reflexivity|]);
    match goal with |- exists pre, ?t = _ => exists (removelast t); reflexivity end.
Qed.

Lemma fatal_step_halts_witness :
  (exists d, snd (run_pipeline exact_products
                    (sample_collaborators (GenOk sample_strategy) (GenError "quota exceeded")
                       (GenOk []) (GenOk [])) sample_request) = ErrorResponse 500 d) /\
  (exists pre, fst (run_pipeline exact_products
                      (sample_collaborators (GenOk sample_strategy) (GenError "quota exceeded")
                         (GenOk []) (GenOk [])) sample_request) = pre ++ [(S_Persona, true)]).
Proof.
  apply (fatal_step_halts exact_products
           (sample_collaborators (GenOk sample_strategy) (GenError "quota exceeded")
              (GenOk []) (GenOk [])) sample_request).
  - reflexivity.
  - simpl; tauto.
  - vm_compute. tauto.
Defined.

(** ** Step 8: high-ROI detection *)

Definition summary_without_phrase : string :=
  "Best channel: highest Conversion Rate was Pamphlets".

(** C6 (code bug): the guard tests "highest Conversion Rate" while the split
    uses " had the highest Conversion Rate"; when only the guard's text is
    present, [parts[0]] is the whole summary and its last word is taken as
    the channel, so "Pamphlets" is boosted although the summary has no
    "had the highest Conversion Rate". *)
Theorem high_roi_without_phrase :
  py_contains "had the highest Conversion Rate" summary_without_phrase = false /\
  find_high_roi (Some summary_without_phrase) ["Pamphlets"; "Instagram Ads"]
    = Some "Pamphlets" /\
  allocate_budget_exact 5000 ["Pamphlets"; "Instagram Ads"] (Some summary_without_phrase)
    = [("Pamphlets", 3000); ("Instagram Ads", 2000)] /\
  allocate_budget_exact 5000 ["Pamphlets"; "Instagram Ads"] None
    = [("Pamphlets", 2500); ("Instagram Ads", 2500)].
Proof. repeat split; vm_compute; reflexivity. Qed.

(** ** Dict lemmas *)

Lemma dsum_app (d1 d2 : dict Z) : dsum (d1 ++ d2) = dsum d1 + dsum d2.
Proof. induction d1 as [|[k v] t IH]; simpl; [reflexivity|]. rewrite IH. lia. Qed.

Lemma dget_app_fresh {V} (pre post : dict V) (k : string) (v : V) :
  ~ In k (keys pre) -> dget (pre ++ (k, v) :: post) k = Some v.
Proof.
  induction pre as [|[k' v'] t IH]; simpl; intros Hn.
  - rewrite String.eqb_refl. reflexivity.
  - destruct (String.eqb_spec k k') as [->|_]; [exfalso; apply Hn; left; reflexivity|].
    apply IH. intros Hin. apply Hn. right. exact Hin.
Qed.

Lemma dset_app_fresh {V} (pre post : dict V) (k : string) (v v' : V) :
  ~ In k (keys pre) -> dset (pre ++ (k, v) :: post) k v' = pre ++ (k, v') :: post.
Proof.
  induction pre as [|[k' w] t IH]; simpl; intros Hn.
  - rewrite String.eqb_refl. reflexivity.
  - destruct (String.eqb_spec k k') as [->|_]; [exfalso; apply Hn; left; reflexivity|].
    rewrite IH; [reflexivity|]. intros Hin. apply Hn. right. exact Hin.
Qed.

Lemma dset_fresh {V} (d : dict V) (k : string) (v : V) :
  ~ In k (keys d) -> dset d k v = d ++ [(k, v)].
Proof.
  induction d as [|[k' w] t IH]; simpl; intros Hn; [reflexivity|].
  destruct (String.eqb_spec k k') as [->|_]; [exfalso; apply Hn; left; reflexivity|].
  rewrite IH; [reflexivity|]. intros Hin. apply Hn. right. exact Hin.
Qed.

Lemma keys_nodup_split {V} (pre post : dict V) (k : string) (v : V) :
  NoDup (keys (pre ++ (k, v) :: post)) -> ~ In k (keys pre).
Proof.
  unfold keys. rewrite map_app. simpl. intros Hnd Hin.
  apply (NoDup_remove_2 _ _ _ Hnd). apply in_or_app. left. exact Hin.
Qed.

(** [max(d, key=d.get)] picks the first key holding the largest value. *)
Lemma argmax_from_spec (bk : string) (bv : Z) (d : dict Z) :
  (argmax_from bk bv d = bk /\ Forall (fun kv => snd kv <= bv) d) \/
  (exists pre v post, d = pre ++ (argmax_from bk bv d, v) :: post /\ bv < v /\
     Forall (fun kv => snd kv < v) pre /\ Forall (fun kv => snd kv <= v) post).
Proof.
  revert bk bv. induction d as [|[k' v'] t IH]; intros bk bv; simpl.
  - left. split; [reflexivity | constructor].
  - destruct (Z.ltb_spec bv v') as [Hlt|Hge].
    + right. destruct (IH k' v') as [[-> Hall] | (pre & v & post & Ht & Hl & Hpre & Hpost)].
      * exists [], v', t. repeat split; auto.
      * exists ((k', v') :: pre), v, post. split; [simpl; f_equal; exact Ht|].
        repeat split; auto; try lia.
    + destruct (IH bk bv) as [[-> Hall] | (pre & v & post & Ht & Hl & Hpre & Hpost)].
      * left. split; [reflexivity|]. constructor; [simpl; lia | exact Hall].
      * right. exists ((k', v') :: pre), v, post. split; [simpl; f_equal; exact Ht|].
        repeat split; auto.
        all: constructor; [simpl; lia | exact Hpre].
Qed.

Lemma py_max_key_spec (d : dict Z) (k : string) :
  py_max_key d = Some k ->
  exists pre v post, d = pre ++ (k, v) :: post /\
    Forall (fun kv => snd kv < v) pre /\ Forall (fun kv => snd kv <= v) post.
Proof.
  destruct d as [|[k0 v0] t]; simpl; intros H; [discriminate|].
  injection H as <-.
  destruct (argmax_from_spec k0 v0 t) as [[-> Hall] | (pre & v & post & Ht & Hl & Hpre & Hpost)].
  - exists [], v0, t. repeat split; auto.
  - exists ((k0, v0) :: pre), v, post. rewrite Ht at 1. repeat split; auto.
    all: constructor; [simpl; lia | exact Hpre].
Qed.

Lemma py_max_key_some (d : dict Z) : d <> [] -> exists k, py_max_key d = Some k.
Proof. destruct d as [|[k v] t]; simpl; [congruence | eauto]. Qed.

(** ** Equal splits *)

Lemma keys_alloc_pairs (base rem i : Z) (cs : list string) :
  keys (alloc_pairs base rem i cs) = cs.
Proof.
  revert i. induction cs as [|c t IH]; intros i; simpl; [reflexivity|].
  unfold keys in *. simpl. rewrite IH. reflexivity.
Qed.

Lemma dsum_alloc_pairs (base rem i : Z) (cs : list string) :
  0 <= rem ->
  dsum (alloc_pairs base rem i cs) =
  base * Z.of_nat (length cs) + Z.max 0 (Z.min rem (i + Z.of_nat (length cs)) - i).
Proof.
  intros Hr. revert i. induction cs as [|c t IH]; intros i; simpl.
  - lia.
  - rewrite IH. destruct (Z.ltb_spec i rem); lia.
Qed.

Lemma set_all_fresh {V} (d : dict V) (ps : list (string * V)) :
  NoDup (keys d ++ keys ps) -> set_all d ps = d ++ ps.
Proof.
  revert d. induction ps as [|[k v] t IH]; intros d Hnd; simpl.
  - rewrite app_nil_r. reflexivity.
  - unfold keys in Hnd. simpl in Hnd.
    rewrite dset_fresh.
    + rewrite IH, <- app_assoc; [reflexivity|].
      unfold keys. rewrite map_app. simpl. rewrite <- app_assoc. exact Hnd.
    + intros Hin. apply (NoDup_remove_2 _ _ _ Hnd). apply in_or_app. left. exact Hin.
Qed.

Lemma alloc_pairs_total (total_budget : Z) (cs : list string) :
  cs <> [] ->
  let n := Z.of_nat (length cs) in
  dsum (alloc_pairs (total_budget / n) (total_budget mod n) 0 cs) = total_budget.
Proof.
  intros Hne n.
  assert (Hn : 0 < n) by (destruct cs; [congruence | unfold n; simpl; lia]).
  pose proof (Z.mod_pos_bound total_budget n Hn).
  rewrite dsum_alloc_pairs by lia. fold n.
  pose proof (Z.div_mod total_budget n ltac:(lia)). lia.
Qed.

Lemma equal_split_total (total_budget : Z) (cs : list string) :
  NoDup cs -> cs <> [] -> dsum (equal_split total_budget cs) = total_budget.
Proof.
  intros Hnd Hne. unfold equal_split.
  rewrite set_all_fresh; [apply alloc_pairs_total; exact Hne|].
  rewrite keys_alloc_pairs. exact Hnd.
Qed.

(** ** Step 7: budget-split correction *)

(** C4 (as amended): for a non-empty split (a dict: distinct keys) whose
    sum differs from the total by [diff <> 0], the first channel holding the
    largest allocation receives the entire [diff]; if it stays non-negative
    the corrected split sums exactly to the total, otherwise the split is
    replaced by the equal split of the total over [recommended_channels]
    (an error object when that list is empty), which sums to the total for
    a non-empty list of distinct channels. *)
Theorem strategy_correction (total_budget : Z) (r : strategy) :
  NoDup (keys (budget_split r)) ->
  budget_split r <> [] ->
  total_budget - dsum (budget_split r) <> 0 ->
  exists largest pre v post,
    budget_split r = pre ++ (largest, v) :: post /\
    Forall (fun kv => snd kv < v) pre /\
    Forall (fun kv => snd kv <= v) post /\
    (0 <= v + (total_budget - dsum (budget_split r)) ->
       strategy_postprocess total_budget r =
         GenOk {| recommended_channels := recommended_channels r;
                  budget_split :=
                    pre ++ (largest, v + (total_budget - dsum (budget_split r))) :: post;
                  campaign_angle := campaign_angle r |} /\
       dsum (pre ++ (largest, v + (total_budget - dsum (budget_split r))) :: post)
         = total_budget) /\
    (v + (total_budget - dsum (budget_split r)) < 0 ->
       strategy_postprocess total_budget r =
         match recommended_channels r with
         | [] => GenError "integer division or modulo by zero"
         | chans => GenOk {| recommended_channels := chans;
                             budget_split := equal_split total_budget chans;
                             campaign_angle := campaign_angle r |}
         end /\
       (NoDup (recommended_channels r) -> recommended_channels r <> [] ->
          dsum (equal_split total_budget (recommended_channels r)) = total_budget)).
Proof.
  intros Hnd Hne Hdiff.
  destruct (py_max_key_some _ Hne) as [largest Hm].
  destruct (py_max_key_spec _ _ Hm) as (pre & v & post & Heq & Hpre & Hpost).
  assert (Hfresh : ~ In largest (keys pre))
    by (rewrite Heq in Hnd; eapply keys_nodup_split; exact Hnd).
  assert (Hsum : dsum (budget_split r) = dsum pre + v + dsum post)
    by (rewrite Heq, dsum_app; simpl; lia).
  assert (Hpp : strategy_postprocess total_budget r =
    if v + (total_budget - dsum (budget_split r)) <? 0 then
      match recommended_channels r with
      | [] => GenError "integer division or modulo by zero"
      | chans => GenOk {| recommended_channels := chans;
                          budget_split := equal_split total_budget chans;
                          campaign_angle := campaign_angle r |}
      end
    else GenOk {| recommended_channels := recommended_channels r;
                  budget_split :=
                    pre ++ (largest, v + (total_budget - dsum (budget_split r))) :: post;
                  campaign_angle := campaign_angle r |}).
  { unfold strategy_postprocess.
    destruct (budget_split r) as [|kv t] eqn:Hs; [congruence|].
    rewrite <- Hs in *.
    destruct (Z.eqb_spec (total_budget - dsum (budget_split r)) 0) as [H0|_];
      [contradiction|].
    rewrite Hm, Heq. unfold dget0.
    rewrite dget_app_fresh, dset_app_fresh, dget_app_fresh by exact Hfresh.
    reflexivity. }
  exists largest, pre, v, post.
  set (diff := total_budget - dsum (budget_split r)) in *.
  repeat split; auto.
  - rewrite Hpp. destruct (Z.ltb_spec (v + diff) 0); [lia | reflexivity].
  - rewrite dsum_app. simpl. unfold diff. lia.
  - rewrite Hpp. destruct (Z.ltb_spec (v + diff) 0); [reflexivity | lia].
  - intros Hnd' Hne'. apply equal_split_total; assumption.
Qed.

Definition tie_strategy : strategy :=
  {| recommended_channels := ["A"; "B"];
     budget_split := [("A", 1000); ("B", 1000)];
     campaign_angle := None |}.

(** The spec's example: {A: 1000, B: 1000} with total 2500 becomes
    {A: 1500, B: 1000}, summing to 2500. *)
Lemma strategy_correction_witness :
  exists largest pre v post,
    budget_split tie_strategy = pre ++ (largest, v) :: post /\
    Forall (fun kv => snd kv < v) pre /\
    Forall (fun kv => snd kv <= v) post /\
    (0 <= v + (2500 - dsum (budget_split tie_strategy)) ->
       strategy_postprocess 2500 tie_strategy =
         GenOk {| recommended_channels := recommended_channels tie_strategy;
                  budget_split :=
                    pre ++ (largest, v + (2500 - dsum (budget_split tie_strategy))) :: post;
                  campaign_angle := campaign_angle tie_strategy |} /\
       dsum (pre ++ (largest, v + (2500 - dsum (budget_split tie_strategy))) :: post)
         = 2500) /\
    (v + (2500 - dsum (budget_split tie_strategy)) < 0 ->
       strategy_postprocess 2500 tie_strategy =
         match recommended_channels tie_strategy with
         | [] => GenError "integer division or modulo by zero"
         | chans => GenOk {| recommended_channels := chans;
                             budget_split := equal_split 2500 chans;
                             campaign_angle := campaign_angle tie_strategy |}
         end /\
       (NoDup (recommended_channels tie_strategy) -> recommended_channels tie_strategy <> [] ->
          dsum (equal_split 2500 (recommended_channels tie_strategy)) = 2500)).
Proof.
  apply strategy_correction.
  - simpl. repeat constructor; simpl; intuition discriminate.
  - discriminate.
  - vm_compute. discriminate.
Defined.

Lemma strategy_correction_example :
  strategy_postprocess 2500 tie_strategy =
    GenOk {| recommended_channels := ["A"; "B"];
             budget_split := [("A", 1500); ("B", 1000)];
             campaign_angle := None |}.
Proof. reflexivity. Qed.

(** C4 (counterexample): {A: 3000, B: 3000} with total 1000 has diff -5000;
    A would fall to -2000, so the split is re-divided equally into
    {A: 500, B: 500} instead of A receiving the whole diff. *)
Lemma strategy_correction_fallback :
  ~ (forall (total_budget : Z) (r : strategy),
       budget_split r <> [] ->
       total_budget - dsum (budget_split r) <> 0 ->
       exists largest st,
         py_max_key (budget_split r) = Some largest /\
         strategy_postprocess total_budget r = GenOk st /\
         budget_split st =
           dset (budget_split r) largest
             (dget0 (budget_split r) largest + (total_budget - dsum (budget_split r)))).
Proof.
  intros H.
  destruct (H 1000 {| recommended_channels := ["A"; "B"];
                      budget_split := [("A", 3000); ("B", 3000)];
                      campaign_angle := None |}
              ltac:(discriminate) ltac:(vm_compute; discriminate))
    as (largest & st & Hm & Hp & Hs).
  vm_compute in Hm. injection Hm as <-.
  vm_compute in Hp. injection Hp as <-.
  vm_compute in Hs. discriminate Hs.
Qed.

(** ** Step 8: the output invariant *)

Lemma wsum_ext (f g : string -> Z) (ks : list string) :
  (forall k, In k ks -> f k = g k) -> wsum f ks = wsum g ks.
Proof.
  induction ks as [|k t IH]; simpl; intros H; [reflexivity|].
  rewrite H, IH; auto.
Qed.

Lemma wsum_lin (f g h : string -> Z) (ks : list string) :
  wsum (fun k => f k + g k - h k) ks = wsum f ks + wsum g ks - wsum h ks.
Proof. induction ks as [|k t IH]; simpl; [reflexivity|]. rewrite IH. lia. Qed.

Lemma wsum_zero (ks : list string) : wsum (fun _ => 0) ks = 0.
Proof. induction ks as [|k t IH]; simpl; [reflexivity|]. rewrite IH. reflexivity. Qed.

Lemma wsum_indicator (h : string) (x : Z) (ks : list string) :
  NoDup ks -> In h ks -> wsum (fun k => if String.eqb k h then x else 0) ks = x.
Proof.
  induction ks as [|k t IH]; simpl; intros Hnd Hin; [contradiction|].
  inversion Hnd as [|? ? Hk Hnd']; subst.
  destruct (String.eqb_spec k h) as [->|Hne].
  - rewrite (wsum_ext _ (fun _ => 0)); [rewrite wsum_zero; lia|].
    intros k' Hk'. destruct (String.eqb_spec k' h); [subst; contradiction | reflexivity].
  - destruct Hin as [->|Hin]; [contradiction|]. rewrite IH; auto.
Qed.

Lemma dget_none {V} (d : dict V) (k : string) : ~ In k (keys d) -> dget d k = None.
Proof.
  induction d as [|[k' v] t IH]; simpl; intros Hn; [reflexivity|].
  destruct (String.eqb_spec k k') as [->|_]; [exfalso; apply Hn; left; reflexivity|].
  apply IH. intros Hin. apply Hn. right. exact Hin.
Qed.

Lemma dget_some {V} (d : dict V) (k : string) :
  In k (keys d) -> exists v, dget d k = Some v /\ In (k, v) d.
Proof.
  induction d as [|[k' v] t IH]; simpl; intros Hin; [contradiction|].
  destruct (String.eqb_spec k k') as [->|Hne].
  - exists v. split; [reflexivity | left; reflexivity].
  - destruct Hin as [->|Hin]; [contradiction|].
    destruct (IH Hin) as (x & Hx & Hix). exists x. split; [exact Hx | right; exact Hix].
Qed.

Lemma dget_In_nodup {V} (d : dict V) (k : string) (v : V) :
  NoDup (keys d) -> In (k, v) d -> dget d k = Some v.
Proof.
  induction d as [|[k' w] t IH]; simpl; intros Hnd Hin; [contradiction|].
  inversion Hnd as [|? ? Hk Hnd']; subst.
  destruct Hin as [Heq|Hin].
  - injection Heq as -> ->. rewrite String.eqb_refl. reflexivity.
  - destruct (String.eqb_spec k k') as [->|_]; [|apply IH; assumption].
    exfalso. apply Hk. apply (in_map fst) in Hin. exact Hin.
Qed.

Lemma dget_dset_same {V} (d : dict V) (k : string) (v : V) : dget (dset d k v) k = Some v.
Proof.
  induction d as [|[k' w] t IH]; simpl.
  - rewrite String.eqb_refl. reflexivity.
  - destruct (String.eqb_spec k k') as [->|Hne]; simpl.
    + rewrite String.eqb_refl. reflexivity.
    + destruct (String.eqb_spec k k'); [contradiction | exact IH].
Qed.

Lemma dget_dset_other {V} (d : dict V) (k k' : string) (v : V) :
  k <> k' -> dget (dset d k' v) k = dget d k.
Proof.
  intros Hne. induction d as [|[k0 w] t IH]; simpl.
  - destruct (String.eqb_spec k k'); [contradiction | reflexivity].
  - destruct (String.eqb_spec k' k0) as [->|_]; simpl.
    + destruct (String.eqb_spec k k0); [contradiction | reflexivity].
    + destruct (String.eqb_spec k k0); [reflexivity | exact IH].
Qed.

Lemma keys_dset_in {V} (d : dict V) (k : string) (v : V) :
  In k (keys d) -> keys (dset d k v) = keys d.
Proof.
  induction d as [|[k' w] t IH]; simpl; intros Hin; [contradiction|].
  destruct (String.eqb_spec k k') as [->|Hne]; [reflexivity|].
  destruct Hin as [->|Hin]; [contradiction|].
  unfold keys in *. simpl. rewrite IH by exact Hin. reflexivity.
Qed.

Lemma In_keys_dset {V} (d : dict V) (k k' : string) (v : V) :
  In k' (keys (dset d k v)) <-> In k' (keys d) \/ k' = k.
Proof.
  unfold keys. induction d as [|[k0 w] t IH]; simpl.
  - split; [intros [H|[]]; right; symmetry; exact H | intros [[]|H]; left; symmetry; exact H].
  - destruct (String.eqb_spec k k0) as [->|_]; simpl.
    + split; [tauto|]. intros [[H|H]|H]; subst; auto.
    + rewrite IH. tauto.
Qed.

Lemma nodup_keys_dset {V} (d : dict V) (k : string) (v : V) :
  NoDup (keys d) -> NoDup (keys (dset d k v)).
Proof.
  intros Hnd. destruct (in_dec string_dec k (keys d)) as [Hin|Hn].
  - rewrite keys_dset_in by exact Hin. exact Hnd.
  - rewrite dset_fresh by exact Hn. unfold keys in *. rewrite map_app. simpl.
    apply NoDup_app; auto.
    + repeat constructor. auto.
    + intros x Hx [<-|[]]. contradiction.
Qed.

Lemma In_dset {V} (d : dict V) (k k' : string) (v v' : V) :
  In (k', v') (dset d k v) -> In (k', v') d \/ (k', v') = (k, v).
Proof.
  induction d as [|[k0 w] t IH]; simpl.
  - intros [H|[]]. right. symmetry. exact H.
  - destruct (String.eqb_spec k k0) as [->|_]; simpl.
    + intros [H|H]; [right; symmetry; exact H | left; right; exact H].
    + intros [H|H]; [left; left; exact H|]. destruct (IH H); auto.
Qed.

Lemma dsum_dset (d : dict Z) (k : string) (u v : Z) :
  dget d k = Some u -> dsum (dset d k v) = dsum d - u + v.
Proof.
  induction d as [|[k' w] t IH]; simpl; intros H; [discriminate|].
  destruct (String.eqb_spec k k') as [->|_]; simpl.
  - injection H as <-. lia.
  - rewrite IH by exact H. lia.
Qed.

(** The sum of a dict is the sum of its values looked up by key. *)
Lemma dsum_by_keys (d : dict Z) :
  NoDup (keys d) -> dsum d = wsum (dget0 d) (keys d).
Proof.
  induction d as [|[k v] t IH]; simpl; intros Hnd; [reflexivity|].
  inversion Hnd as [|? ? Hk Hnd']; subst.
  unfold dget0 at 1. simpl. rewrite String.eqb_refl.
  rewrite IH by exact Hnd'. f_equal.
  apply wsum_ext. intros k' Hk'. unfold dget0. simpl.
  destruct (String.eqb_spec k' k) as [->|_]; [contradiction | reflexivity].
Qed.

(** Facts about [set_all], the loop [for k, v in ps: d[k] = v]. *)
Lemma In_keys_set_all {V} (d : dict V) (ps : list (string * V)) (k : string) :
  In k (keys (set_all d ps)) <-> In k (keys d) \/ In k (keys ps).
Proof.
  revert d. induction ps as [|[k' v] t IH]; intros d; simpl.
  - unfold keys at 2. simpl. tauto.
  - rewrite IH, In_keys_dset. change (keys ((k', v) :: t)) with (k' :: keys t).
    simpl. split; [intros [[H|H]|H] | intros [H|[H|H]]]; subst; auto.
Qed.

Lemma nodup_keys_set_all {V} (d : dict V) (ps : list (string * V)) :
  NoDup (keys d) -> NoDup (keys (set_all d ps)).
Proof.
  revert d. induction ps as [|[k v] t IH]; intros d Hnd; simpl; [exact Hnd|].
  apply IH. apply nodup_keys_dset. exact Hnd.
Qed.

Lemma set_all_forall {V} (Q : string -> V -> Prop) (d : dict V) (ps : list (string * V)) :
  (forall k v, In (k, v) d -> Q k v) -> (forall k v, In (k, v) ps -> Q k v) ->
  forall k v, In (k, v) (set_all d ps) -> Q k v.
Proof.
  revert d. induction ps as [|[k0 v0] t IH]; intros d Hd Hps; simpl; [exact Hd|].
  apply IH.
  - intros k v Hin. destruct (In_dset _ _ _ _ _ Hin) as [H|H].
    + apply Hd. exact H.
    + injection H as -> ->. apply Hps. left. reflexivity.
  - intros k v Hin. apply Hps. right. exact Hin.
Qed.

Lemma dget_set_all_notin {V} (d : dict V) (ps : list (string * V)) (k : string) :
  ~ In k (keys ps) -> dget (set_all d ps) k = dget d k.
Proof.
  revert d. induction ps as [|[k0 v0] t IH]; intros d Hn; simpl; [reflexivity|].
  unfold keys in Hn. simpl in Hn.
  rewrite IH by tauto. apply dget_dset_other. intros ->. apply Hn. left. reflexivity.
Qed.

Lemma wsum_app (f : string -> Z) (a b : list string) :
  wsum f (a ++ b) = wsum f a + wsum f b.
Proof. induction a as [|k t IH]; simpl; [reflexivity|]. rewrite IH. lia. Qed.

(** With non-increasing values, the value left for a key after the loop is
    at most the value of any of its occurrences. *)
Lemma set_all_sorted_le (ps : list (string * Z)) :
  ForallOrdPairs (fun x y => snd y <= snd x) ps ->
  forall acc c v, In (c, v) ps -> exists v', dget (set_all acc ps) c = Some v' /\ v' <= v.
Proof.
  induction ps as [|[c0 v0] t IH]; intros Hs acc c v Hin; [contradiction|].
  inversion Hs as [|? ? Hhd Htl]; subst.
  change (set_all acc ((c0, v0) :: t)) with (set_all (dset acc c0 v0) t).
  destruct Hin as [Heq|Hin].
  - injection Heq as -> ->.
    destruct (in_dec string_dec c (keys t)) as [Hk|Hk].
    + apply in_map_iff in Hk. destruct Hk as [[c1 v1] [Hc1 Hin1]]. simpl in Hc1. subst c1.
      destruct (IH Htl (dset acc c v) c v1 Hin1) as (v' & Hv' & Hle).
      rewrite Forall_forall in Hhd. specialize (Hhd _ Hin1). simpl in Hhd.
      exists v'. split; [exact Hv' | lia].
    + exists v. rewrite dget_set_all_notin by exact Hk. split; [apply dget_dset_same | lia].
  - apply IH; assumption.
Qed.

(** The accounting of the loop [for k, v in ps: d[k] = v] against a weight
    [w] bounded by every value: overwriting a key loses at least its weight. *)
Lemma set_all_accounting (w : string -> Z) (ps : list (string * Z)) :
  forall acc, NoDup (keys acc) ->
  (forall k x, In (k, x) acc -> w k <= x) ->
  (forall k x, In (k, x) ps -> w k <= x) ->
  wsum w (keys ps) + wsum w (keys acc) - wsum w (keys (set_all acc ps))
  <= dsum ps + dsum acc - dsum (set_all acc ps).
Proof.
  induction ps as [|[c v] t IH]; intros acc Hnd Hacc Hps.
  - unfold keys at 1. simpl. lia.
  - change (set_all acc ((c, v) :: t)) with (set_all (dset acc c v) t).
    change (keys ((c, v) :: t)) with (c :: keys t).
    change (dsum ((c, v) :: t)) with (v + dsum t). simpl wsum.
    assert (Hacc' : forall k x, In (k, x) (dset acc c v) -> w k <= x).
    { intros k x Hin. destruct (In_dset _ _ _ _ _ Hin) as [H|H].
      - apply Hacc. exact H.
      - injection H as -> ->. apply Hps. left. reflexivity. }
    specialize (IH (dset acc c v) (nodup_keys_dset _ _ _ Hnd) Hacc'
                  (fun k x H => Hps k x (or_intror H))).
    pose proof (Hps c v (or_introl eq_refl)) as Hwc.
    destruct (in_dec string_dec c (keys acc)) as [Hk|Hk].
    + destruct (dget_some acc c Hk) as (u & Hu & Hiu).
      assert (Hks : keys (dset acc c v) = keys acc) by (apply keys_dset_in; exact Hk).
      assert (Hsum : dsum (dset acc c v) = dsum acc - u + v) by (apply dsum_dset; exact Hu).
      rewrite Hks, Hsum in IH. specialize (Hacc _ _ Hiu). lia.
    + assert (Hks : wsum w (keys (dset acc c v)) = wsum w (keys acc) + w c).
      { rewrite dset_fresh by exact Hk. unfold keys. rewrite map_app, wsum_app. simpl. lia. }
      assert (Hsum : dsum (dset acc c v) = dsum acc + v).
      { rewrite dset_fresh by exact Hk. rewrite dsum_app. simpl. lia. }
      rewrite Hks, Hsum in IH. lia.
Qed.

Lemma alloc_pairs_bound (base rem i j : Z) (cs : list string) :
  j <= i -> forall p, In p (alloc_pairs base rem i cs) ->
  snd p <= base + (if j <? rem then 1 else 0).
Proof.
  revert i. induction cs as [|c t IH]; intros i Hj p Hin; simpl in Hin; [contradiction|].
  destruct Hin as [<-|Hin].
  - simpl. destruct (Z.ltb_spec i rem), (Z.ltb_spec j rem); lia.
  - apply (IH (i + 1)); [lia | exact Hin].
Qed.

Lemma alloc_pairs_sorted (base rem i : Z) (cs : list string) :
  ForallOrdPairs (fun x y => snd y <= snd x) (alloc_pairs base rem i cs).
Proof.
  revert i. induction cs as [|c t IH]; intros i; simpl; constructor.
  - apply Forall_forall. intros p Hp. simpl.
    apply (alloc_pairs_bound base rem (i + 1) i t); [lia | exact Hp].
  - apply IH.
Qed.

Lemma alloc_pairs_nonneg (base rem i : Z) (cs : list string) :
  0 <= base -> forall k x, In (k, x) (alloc_pairs base rem i cs) -> 0 <= x.
Proof.
  intros Hb. revert i. induction cs as [|c t IH]; intros i k x Hin; simpl in Hin; [contradiction|].
  destruct Hin as [H|Hin].
  - injection H as _ <-. destruct (i <? rem); lia.
  - exact (IH _ _ _ Hin).
Qed.

Lemma dget_In {V} (d : dict V) (k : string) (v : V) : dget d k = Some v -> In (k, v) d.
Proof.
  induction d as [|[k' w] t IH]; simpl; intros H; [discriminate|].
  destruct (String.eqb_spec k k') as [->|_].
  - injection H as ->. left. reflexivity.
  - right. apply IH. exact H.
Qed.

Lemma dget0_nonneg (d : dict Z) (k : string) :
  (forall k x, In (k, x) d -> 0 <= x) -> 0 <= dget0 d k.
Proof.
  intros Hd. unfold dget0. destruct (dget d k) as [x|] eqn:E; [|lia].
  exact (Hd _ _ (dget_In _ _ _ E)).
Qed.

Lemma dget0_cons (c : string) (r : Z) (t : dict Z) (k : string) :
  dget0 ((c, r) :: t) k = if String.eqb k c then r else dget0 t k.
Proof. unfold dget0. simpl. destruct (String.eqb k c); reflexivity. Qed.

Lemma dget0_none (d : dict Z) (k : string) : ~ In k (keys d) -> dget0 d k = 0.
Proof. intros H. unfold dget0. rewrite dget_none by exact H. reflexivity. Qed.

Lemma dget0_dset_same (d : dict Z) (k : string) (v : Z) : dget0 (dset d k v) k = v.
Proof. unfold dget0. rewrite dget_dset_same. reflexivity. Qed.

Lemma dget0_dset_other (d : dict Z) (k k' : string) (v : Z) :
  k <> k' -> dget0 (dset d k' v) k = dget0 d k.
Proof. intros H. unfold dget0. rewrite dget_dset_other by exact H. reflexivity. Qed.

(** [for channel, reduction in reductions.items(): adj[channel] -= reduction] on a
    dict of reductions whose keys are all in [adj]. *)
Lemma apply_reductions_spec (R : dict Z) :
  forall d, NoDup (keys R) -> (forall k, In k (keys R) -> In k (keys d)) ->
  keys (apply_reductions d R) = keys d /\
  forall k, dget0 (apply_reductions d R) k = dget0 d k - dget0 R k.
Proof.
  induction R as [|[c r] t IH]; intros d Hnd Hsub.
  - split; [reflexivity|]. intros k. change (apply_reductions d []) with d. rewrite (dget0_none [] k) by (intros []). lia.
  - change (apply_reductions d ((c, r) :: t))
      with (apply_reductions (dset d c (dget0 d c - r)) t).
    change (keys ((c, r) :: t)) with (c :: keys t) in Hnd, Hsub.
    inversion Hnd as [|? ? Hct Hnd']; subst.
    assert (Hc : In c (keys d)) by (apply Hsub; left; reflexivity).
    assert (Hks : keys (dset d c (dget0 d c - r)) = keys d) by (apply keys_dset_in; exact Hc).
    destruct (IH (dset d c (dget0 d c - r)) Hnd') as [IHk IHv].
    { intros k Hk. rewrite Hks. apply Hsub. right. exact Hk. }
    split; [rewrite IHk; exact Hks|].
    intros k. rewrite IHv, dget0_cons.
    destruct (String.eqb_spec k c) as [->|Hne].
    + rewrite dget0_dset_same, (dget0_none t c Hct). lia.
    + rewrite dget0_dset_other by exact Hne. reflexivity.
Qed.

Lemma clamp_negatives_id (d : dict Z) :
  (forall k x, In (k, x) d -> 0 <= x) -> clamp_negatives d = d.
Proof.
  induction d as [|[k v] t IH]; intros Hd; [reflexivity|].
  unfold clamp_negatives in *. simpl. rewrite IH.
  - destruct (Z.ltb_spec v 0) as [Hv|_]; [|reflexivity].
    specialize (Hd k v (or_introl eq_refl)). lia.
  - intros k' x Hin. apply (Hd k' x). right. exact Hin.
Qed.

Lemma fix_total_id (total_budget : Z) (d : dict Z) :
  dsum d = total_budget -> fix_total total_budget d = d.
Proof.
  intros H. unfold fix_total. rewrite H, Z.sub_diag. reflexivity.
Qed.

(** The first [fix_total] adds a non-negative drift to one channel. *)
Lemma fix_total_ok (total_budget : Z) (d : dict Z) :
  d <> [] -> (forall k x, In (k, x) d -> 0 <= x) -> dsum d <= total_budget ->
  (forall k x, In (k, x) (fix_total total_budget d) -> 0 <= x) /\
  dsum (fix_total total_budget d) = total_budget.
Proof.
  intros Hne Hd Hle. unfold fix_total.
  destruct (Z.eqb_spec (total_budget - dsum d) 0) as [E|E]; simpl.
  - split; [exact Hd | lia].
  - destruct (py_max_key_some d Hne) as [k Hk]. rewrite Hk.
    destruct (py_max_key_spec d k Hk) as (pre & v & post & Hdec & _ & _).
    assert (Hkv : dget d k = Some (dget0 d k)).
    { destruct (dget_some d k) as (u & Hu & _).
      - rewrite Hdec. unfold keys. rewrite map_app. apply in_or_app. right. left. reflexivity.
      - unfold dget0. rewrite Hu. reflexivity. }
    pose proof (dget0_nonneg d k Hd) as Hk0.
    split.
    + intros k' x Hin. destruct (In_dset _ _ _ _ _ Hin) as [H|H].
      * exact (Hd _ _ H).
      * injection H as -> ->. lia.
    + rewrite (dsum_dset _ _ _ _ Hkv). lia.
Qed.

Section AllocatorInvariant.

Variable int_mul_02 : Z -> Z.
Variable int_mul_03 : Z -> Z.
Variable int_scaled : Z -> Z -> Z -> Z.

(** What the allocator needs of the float products [int(x * 0.2)],
    [int(x * 0.3)] and [int(b * (a / t))] on non-negative arguments; IEEE
    doubles satisfy all three. *)
Hypothesis int_mul_02_nonneg : forall x, 0 <= x -> 0 <= int_mul_02 x.
Hypothesis int_mul_03_bounds : forall x, 0 <= x -> 0 <= int_mul_03 x <= x.
Hypothesis int_scaled_nonneg :
  forall b a t, 0 <= b -> 0 <= a -> 0 < t -> 0 <= int_scaled b a t.

Lemma collect_reductions_eq (h : string) (adj : dict Z) (b t : Z) (cs : list string) :
  forall reds tk,
  collect_reductions int_mul_03 int_scaled h adj b t cs reds tk =
  (set_all reds (red_pairs int_mul_03 int_scaled h adj b t cs),
   tk + dsum (red_pairs int_mul_03 int_scaled h adj b t cs)).
Proof.
  unfold red_pairs. induction cs as [|c cs' IH]; intros reds tk.
  - simpl. rewrite Z.add_0_r. reflexivity.
  - change (collect_reductions int_mul_03 int_scaled h adj b t (c :: cs') reds tk) with
      (if String.eqb c h then collect_reductions int_mul_03 int_scaled h adj b t cs' reds tk
       else collect_reductions int_mul_03 int_scaled h adj b t cs'
              (dset reds c (reduction_of int_mul_03 int_scaled b t (dget0 adj c)))
              (tk + reduction_of int_mul_03 int_scaled b t (dget0 adj c))).
    change (filter (fun c0 => negb (String.eqb c0 h)) (c :: cs')) with
      (if negb (String.eqb c h) then c :: filter (fun c0 => negb (String.eqb c0 h)) cs'
       else filter (fun c0 => negb (String.eqb c0 h)) cs').
    destruct (String.eqb c h); simpl negb; cbv iota; [apply IH|].
    rewrite IH. unfold dsum. simpl. f_equal. lia.
Qed.

Lemma dsum_red_pairs (h : string) (adj : dict Z) (b t : Z) (cs : list string) :
  dsum (red_pairs int_mul_03 int_scaled h adj b t cs) =
  wsum (fun c => if String.eqb c h then 0
                 else reduction_of int_mul_03 int_scaled b t (dget0 adj c)) cs.
Proof.
  unfold red_pairs, dsum, wsum. induction cs as [|c cs' IH]; [reflexivity|].
  simpl. destruct (String.eqb c h); simpl; rewrite IH; lia.
Qed.

Lemma red_dict_get (h : string) (adj : dict Z) (b t : Z) (cs : list string) (k : string) :
  In k cs ->
  dget0 (set_all [] (red_pairs int_mul_03 int_scaled h adj b t cs)) k =
  (if String.eqb k h then 0 else reduction_of int_mul_03 int_scaled b t (dget0 adj k)).
Proof.
  intros Hk. destruct (String.eqb_spec k h) as [->|Hne].
  - apply dget0_none. rewrite In_keys_set_all. intros [[]|H].
    unfold red_pairs, keys in H. rewrite in_map_iff in H. destruct H as (x & Hx & Hin).
    rewrite in_map_iff in Hin. destruct Hin as (c & Hc & Hin). subst x. simpl in Hx. subst c.
    rewrite filter_In, String.eqb_refl in Hin. destruct Hin as [_ Hn]. discriminate.
  - assert (Hmem : In k (keys (set_all [] (red_pairs int_mul_03 int_scaled h adj b t cs)))).
    { rewrite In_keys_set_all. right. unfold red_pairs, keys. rewrite map_map.
      apply in_map_iff. exists k. split; [reflexivity|].
      apply filter_In. split; [exact Hk|]. rewrite (proj2 (String.eqb_neq k h) Hne). reflexivity. }
    destruct (dget_some _ _ Hmem) as (x & Hx & Hin). unfold dget0 at 1. rewrite Hx.
    refine (set_all_forall
              (fun k x => x = reduction_of int_mul_03 int_scaled b t (dget0 adj k))
              [] _ _ _ k x Hin).
    + intros ? ? [].
    + intros k' x' H'. unfold red_pairs in H'. rewrite in_map_iff in H'.
      destruct H' as (c & Hc & _). injection Hc as <- <-. reflexivity.
Qed.

(** The boost step moves budget to [h] without raising the total above
    [total_budget] and without making any channel negative. *)
Lemma apply_boost_ok (total_budget base : Z) (cs : list string) (h : string) (adj : dict Z) :
  0 <= base -> NoDup (keys adj) -> (forall k, In k (keys adj) <-> In k cs) ->
  (forall k x, In (k, x) adj -> 0 <= x) -> In h cs ->
  (forall w, (forall c, In c cs -> w c <= dget0 adj c) ->
     dsum adj + wsum w cs - wsum w (keys adj) <= total_budget) ->
  keys (apply_boost int_mul_02 int_mul_03 int_scaled total_budget cs base h adj) = keys adj /\
  (forall k x, In (k, x) (apply_boost int_mul_02 int_mul_03 int_scaled total_budget cs base h adj) ->
     0 <= x) /\
  dsum (apply_boost int_mul_02 int_mul_03 int_scaled total_budget cs base h adj) <= total_budget.
Proof.
  intros Hb Hnd Hks Hnn Hh HA.
  assert (Hle : dsum adj <= total_budget).
  { pose proof (HA (fun _ => 0) (fun c _ => dget0_nonneg adj c Hnn)) as H0.
    rewrite !wsum_zero in H0. lia. }
  unfold apply_boost. cbv zeta.
  set (a := dget0 adj h). set (boost := Z.min (base / 2) (int_mul_02 a)).
  set (tot := total_budget - a).
  assert (Ha : 0 <= a) by (apply dget0_nonneg; exact Hnn).
  assert (Hbo : 0 <= boost).
  { unfold boost. pose proof (int_mul_02_nonneg a Ha). pose proof (Z.div_pos base 2 Hb ltac:(lia)). lia. }
  destruct (Z.ltb_spec 0 tot) as [Htot|Htot]; [|split; [reflexivity | split; [exact Hnn | exact Hle]]].
  rewrite collect_reductions_eq.
  set (rp := red_pairs int_mul_03 int_scaled h adj boost tot cs).
  cbv iota.
  destruct (Z.ltb_spec 0 (0 + dsum rp)) as [Htk|Htk];
    [|split; [reflexivity | split; [exact Hnn | exact Hle]]].
  set (w := fun c => if String.eqb c h then 0
                     else reduction_of int_mul_03 int_scaled boost tot (dget0 adj c)).
  assert (Hw : forall c, 0 <= w c <= dget0 adj c).
  { intros c. pose proof (dget0_nonneg adj c Hnn) as Hc. unfold w.
    destruct (String.eqb c h); [lia|]. unfold reduction_of.
    pose proof (int_scaled_nonneg boost (dget0 adj c) tot Hbo Hc Htot).
    pose proof (int_mul_03_bounds (dget0 adj c) Hc). lia. }
  assert (Htaken : dsum rp = wsum w cs) by (unfold rp, w; apply dsum_red_pairs).
  assert (Hh' : In h (keys adj)) by (apply Hks; exact Hh).
  set (d1 := dset adj h (a + (0 + dsum rp))).
  assert (Hk1 : keys d1 = keys adj) by (apply keys_dset_in; exact Hh').
  set (R := set_all [] rp).
  assert (HndR : NoDup (keys R)) by (apply nodup_keys_set_all; constructor).
  assert (HsubR : forall k, In k (keys R) -> In k (keys d1)).
  { intros k Hk. unfold R in Hk. rewrite In_keys_set_all in Hk. destruct Hk as [[]|Hk].
    rewrite Hk1. apply Hks. unfold rp, red_pairs, keys in Hk. rewrite map_map, in_map_iff in Hk.
    destruct Hk as (c & Hc & Hin). simpl in Hc. subst c. rewrite filter_In in Hin. tauto. }
  destruct (apply_reductions_spec R d1 HndR HsubR) as [HkF HvF].
  assert (Hval : forall k, In k (keys adj) ->
            dget0 (apply_reductions d1 R) k =
            dget0 adj k + (if String.eqb k h then dsum rp else 0) - w k).
  { intros k Hk. rewrite HvF.
    assert (HR : dget0 R k = w k) by (unfold R, rp, w; apply red_dict_get; apply Hks; exact Hk).
    rewrite HR. unfold d1. destruct (String.eqb_spec k h) as [->|Hne].
    - rewrite dget0_dset_same. unfold a. lia.
    - rewrite dget0_dset_other by exact Hne. lia. }
  assert (HndF : NoDup (keys (apply_reductions d1 R))) by (rewrite HkF, Hk1; exact Hnd).
  split; [rewrite HkF; exact Hk1|]. split.
  - intros k x Hin.
    pose proof (dget_In_nodup _ _ _ HndF Hin) as Hg.
    assert (Hk : In k (keys adj)).
    { rewrite <- Hk1, <- HkF. apply (in_map fst) in Hin. exact Hin. }
    pose proof (Hval k Hk) as Hv. unfold dget0 at 1 in Hv. rewrite Hg in Hv.
    destruct (Hw k). destruct (String.eqb k h); lia.
  - rewrite (dsum_by_keys _ HndF), HkF, Hk1.
    rewrite (wsum_ext _ (fun k => dget0 adj k + (if String.eqb k h then dsum rp else 0) - w k))
      by exact Hval.
    rewrite wsum_lin, (wsum_indicator h (dsum rp) (keys adj) Hnd Hh'), <- (dsum_by_keys _ Hnd).
    pose proof (HA w (fun c _ => proj2 (Hw c))). lia.
Qed.


Lemma allocate_finish (total_budget : Z) (adj : dict Z) :
  adj <> [] -> (forall k x, In (k, x) adj -> 0 <= x) -> dsum adj <= total_budget ->
  Forall (fun kv => 0 <= snd kv)
    (fix_total total_budget (clamp_negatives (fix_total total_budget adj))) /\
  dsum (fix_total total_budget (clamp_negatives (fix_total total_budget adj))) = total_budget.
Proof.
  intros Hne Hnn Hle. destruct (fix_total_ok total_budget adj Hne Hnn Hle) as [Hn Hs].
  rewrite (clamp_negatives_id _ Hn), (fix_total_id _ _ Hs).
  split; [apply Forall_forall; intros [k x] Hin; exact (Hn k x Hin) | exact Hs].
Qed.

(** C1: for a non-empty channel list and a non-negative total budget, every
    value of the budget split returned by [allocate_budget] is non-negative
    and the values sum exactly to [total_budget]. *)
Theorem allocate_budget_invariant (total_budget : Z) (recommended_channels : list string)
    (previous_results : option string) :
  0 <= total_budget -> recommended_channels <> [] ->
  Forall (fun kv => 0 <= snd kv)
    (allocate_budget int_mul_02 int_mul_03 int_scaled
       total_budget recommended_channels previous_results) /\
  dsum (allocate_budget int_mul_02 int_mul_03 int_scaled
          total_budget recommended_channels previous_results) = total_budget.
Proof.
  intros HT Hne. unfold allocate_budget. cbv zeta.
  set (n := Z.of_nat (length recommended_channels)).
  assert (Hn : 0 < n) by (destruct recommended_channels; [congruence | unfold n; simpl; lia]).
  destruct (Z.eqb_spec n 0) as [E|_]; [lia|].
  destruct (Z.leb_spec total_budget 0) as [HT0|HT0].
  { cbn [orb]. split; [constructor | simpl; lia]. }
  cbn [orb].
  set (base := total_budget / n). set (rem := total_budget mod n).
  set (P := alloc_pairs base rem 0 recommended_channels).
  set (D0 := set_all [] P).
  assert (Hbase : 0 <= base) by (apply Z.div_pos; lia).
  assert (HkP : keys P = recommended_channels) by apply keys_alloc_pairs.
  assert (HndD0 : NoDup (keys D0)) by (apply nodup_keys_set_all; constructor).
  assert (HkD0 : forall k, In k (keys D0) <-> In k recommended_channels).
  { intros k. unfold D0. rewrite In_keys_set_all, HkP. simpl. tauto. }
  assert (HnnD0 : forall k x, In (k, x) D0 -> 0 <= x).
  { apply set_all_forall; [intros ? ? []|]. apply alloc_pairs_nonneg. exact Hbase. }
  assert (HsumP : dsum P = total_budget)
    by exact (alloc_pairs_total total_budget recommended_channels Hne).
  assert (HA : forall w, (forall c, In c recommended_channels -> w c <= dget0 D0 c) ->
             dsum D0 + wsum w recommended_channels - wsum w (keys D0) <= total_budget).
  { intros w Hw.
    assert (Hps : forall k x, In (k, x) P -> w k <= x).
    { intros k x Hin.
      destruct (set_all_sorted_le P (alloc_pairs_sorted base rem 0 recommended_channels)
                  [] k x Hin) as (v' & Hv' & Hle).
      assert (Hk : In k recommended_channels).
      { rewrite <- HkP. apply (in_map fst) in Hin. exact Hin. }
      specialize (Hw k Hk). unfold D0, dget0 in Hw. rewrite Hv' in Hw. lia. }
    pose proof (set_all_accounting w P [] (NoDup_nil _) (fun _ _ H => match H with end) Hps)
      as Hacc.
    rewrite HkP in Hacc. fold D0 in Hacc. simpl in Hacc. lia. }
  assert (Hle0 : dsum D0 <= total_budget).
  { pose proof (HA (fun _ => 0) (fun c _ => dget0_nonneg D0 c HnnD0)) as H0.
    rewrite !wsum_zero in H0. lia. }
  assert (HD1 : forall D1, keys D1 = keys D0 -> (forall k x, In (k, x) D1 -> 0 <= x) ->
             dsum D1 <= total_budget ->
             Forall (fun kv => 0 <= snd kv)
               (fix_total total_budget (clamp_negatives (fix_total total_budget D1))) /\
             dsum (fix_total total_budget (clamp_negatives (fix_total total_budget D1)))
               = total_budget).
  { intros D1 Hk Hnn Hs. apply allocate_finish; [|exact Hnn | exact Hs].
    intros ->. destruct recommended_channels as [|c t]; [congruence|].
    assert (Hc : In c (keys D0)) by (apply HkD0; left; reflexivity).
    rewrite <- Hk in Hc. contradiction. }
  destruct (find_high_roi previous_results recommended_channels) as [h|];
    [|apply HD1; [reflexivity | exact HnnD0 | exact Hle0]].
  match goal with
  | |- context [if ?c then apply_boost _ _ _ _ _ _ _ _ else _] => destruct c eqn:Hc
  end; [|apply HD1; [reflexivity | exact HnnD0 | exact Hle0]].
  apply andb_prop in Hc as [Hc _]. apply andb_prop in Hc as [_ Hc].
  destruct (dget D0 h) as [v|] eqn:Hg; [|discriminate].
  assert (Hh : In h recommended_channels).
  { apply HkD0. exact (in_map fst _ _ (dget_In _ _ _ Hg)). }
  destruct (apply_boost_ok total_budget base recommended_channels h D0
              Hbase HndD0 HkD0 HnnD0 Hh HA) as (H1 & H2 & H3).
  apply HD1; assumption.
Qed.

End AllocatorInvariant.

Lemma exact_mul_02_nonneg (x : Z) : 0 <= x -> 0 <= exact_mul_02 x.
Proof. intros H. unfold exact_mul_02. apply Z.quot_pos; lia. Qed.

Lemma exact_mul_03_bounds (x : Z) : 0 <= x -> 0 <= exact_mul_03 x <= x.
Proof.
  intros H. unfold exact_mul_03. rewrite Z.quot_div_nonneg by lia.
  split; [apply Z.div_pos; lia | apply Z.div_le_upper_bound; lia].
Qed.

Lemma exact_scaled_nonneg (b a t : Z) : 0 <= b -> 0 <= a -> 0 < t -> 0 <= exact_scaled b a t.
Proof. intros Hb Ha Ht. unfold exact_scaled. apply Z.quot_pos; [apply Z.mul_nonneg_nonneg|]; lia. Qed.

Lemma allocate_budget_invariant_witness :
  0 <= 5000 /\ ["Pamphlets"; "Instagram Ads"] <> [] /\
  Forall (fun kv => 0 <= snd kv)
    (allocate_budget exact_mul_02 exact_mul_03 exact_scaled 5000 ["Pamphlets"; "Instagram Ads"]
       (Some "Pamphlets had the highest Conversion Rate.")) /\
  dsum (allocate_budget exact_mul_02 exact_mul_03 exact_scaled 5000 ["Pamphlets"; "Instagram Ads"]
          (Some "Pamphlets had the highest Conversion Rate.")) = 5000.
Proof.
  split; [lia|]. split; [discriminate|].
  apply (allocate_budget_invariant exact_mul_02 exact_mul_03 exact_scaled
           exact_mul_02_nonneg exact_mul_03_bounds exact_scaled_nonneg
           5000 ["Pamphlets"; "Instagram Ads"] (Some "Pamphlets had the highest Conversion Rate."));
    [lia | discriminate].
Defined.

(** * Further properties *)

(** ** Step 8: keys and the split without a boost *)

Lemma keys_fix_total (total_budget : Z) (d : dict Z) :
  keys (fix_total total_budget d) = keys d.
Proof.
  unfold fix_total. destruct (negb _); [|reflexivity].
  destruct (py_max_key d) as [k|] eqn:Hk; [|reflexivity].
  apply keys_dset_in. destruct (py_max_key_spec d k Hk) as (pre & v & post & -> & _).
  unfold keys. rewrite map_app. apply in_or_app. right. left. reflexivity.
Qed.

Lemma keys_clamp_negatives (d : dict Z) : keys (clamp_negatives d) = keys d.
Proof. induction d as [|[k v] t IH]; [reflexivity|]. unfold keys in *. simpl. f_equal. exact IH. Qed.

Lemma In_keys_red_pairs (f03 : Z -> Z) (fsc : Z -> Z -> Z -> Z) (h : string) (adj : dict Z)
    (b t : Z) (cs : list string) (k : string) :
  In k (keys (red_pairs f03 fsc h adj b t cs)) -> In k cs /\ k <> h.
Proof.
  unfold red_pairs, keys. rewrite map_map, in_map_iff.
  intros (c & Hc & Hin). simpl in Hc. subst c. rewrite filter_In in Hin.
  destruct Hin as [Hin Hn]. split; [exact Hin|].
  intros ->. rewrite String.eqb_refl in Hn. discriminate.
Qed.

Lemma keys_apply_boost (f02 f03 : Z -> Z) (fsc : Z -> Z -> Z -> Z) (total_budget : Z)
    (cs : list string) (base : Z) (h : string) (adj : dict Z) :
  (forall k, In k cs -> In k (keys adj)) -> In h (keys adj) ->
  keys (apply_boost f02 f03 fsc total_budget cs base h adj) = keys adj.
Proof.
  intros Hcs Hh. unfold apply_boost. cbv zeta.
  destruct (0 <? _); [|reflexivity].
  rewrite collect_reductions_eq. cbv iota.
  destruct (0 <? _); [|reflexivity].
  match goal with
  | |- keys (apply_reductions ?d1 ?R) = _ =>
      assert (Hk1 : keys d1 = keys adj) by (apply keys_dset_in; exact Hh);
      destruct (apply_reductions_spec R d1) as [HkF _]
  end.
  - apply nodup_keys_set_all. constructor.
  - intros k Hk. rewrite In_keys_set_all in Hk. destruct Hk as [[]|Hk].
    rewrite Hk1. apply Hcs. apply (In_keys_red_pairs _ _ _ _ _ _ _ _ Hk).
  - rewrite HkF. exact Hk1.
Qed.

(** The keys of the split, for a positive budget: every recommended channel,
    each once. *)
Lemma allocate_budget_keys_gen (f02 f03 : Z -> Z) (fsc : Z -> Z -> Z -> Z)
    (total_budget : Z) (cs : list string) (prev : option string) :
  0 < total_budget ->
  NoDup (keys (allocate_budget f02 f03 fsc total_budget cs prev)) /\
  (forall k, In k (keys (allocate_budget f02 f03 fsc total_budget cs prev)) <-> In k cs).
Proof.
  intros HT. destruct cs as [|c0 cs0].
  { unfold allocate_budget. simpl. split; [constructor | tauto]. }
  set (cs := c0 :: cs0).
  unfold allocate_budget. cbv zeta.
  set (n := Z.of_nat (length cs)).
  assert (Hn : 0 < n) by (unfold n, cs; simpl; lia).
  destruct (Z.eqb_spec n 0) as [E|_]; [lia|].
  destruct (Z.leb_spec total_budget 0) as [HT0|_]; [lia|].
  cbn [orb]. rewrite keys_fix_total, keys_clamp_negatives, keys_fix_total.
  set (D0 := set_all [] (alloc_pairs (total_budget / n) (total_budget mod n) 0 cs)).
  assert (HndD0 : NoDup (keys D0)) by (apply nodup_keys_set_all; constructor).
  assert (HkD0 : forall k, In k (keys D0) <-> In k cs).
  { intros k. unfold D0. rewrite In_keys_set_all, keys_alloc_pairs. simpl. tauto. }
  destruct (find_high_roi prev cs) as [h|]; [|split; assumption].
  match goal with
  | |- context [if ?c then apply_boost _ _ _ _ _ _ _ _ else _] => destruct c eqn:Hc
  end; [|split; assumption].
  apply andb_prop in Hc as [Hc _]. apply andb_prop in Hc as [_ Hc].
  destruct (dget D0 h) as [v|] eqn:Hg; [|discriminate].
  rewrite keys_apply_boost.
  - split; assumption.
  - intros k Hk. apply HkD0. exact Hk.
  - exact (in_map fst _ _ (dget_In _ _ _ Hg)).
Qed.

Lemma allocate_budget_nonpos (f02 f03 : Z -> Z) (fsc : Z -> Z -> Z -> Z)
    (total_budget : Z) (cs : list string) (prev : option string) :
  total_budget <= 0 -> allocate_budget f02 f03 fsc total_budget cs prev = [].
Proof.
  intros H. unfold allocate_budget. cbv zeta.
  destruct (Z.leb_spec total_budget 0); [|lia]. rewrite orb_true_r. reflexivity.
Qed.

Lemma alloc_pairs_values_nonneg (base rem i : Z) (cs : list string) :
  0 <= base -> forall kv, In kv (alloc_pairs base rem i cs) -> 0 <= snd kv.
Proof.
  intros Hb [k x] Hin. exact (alloc_pairs_nonneg base rem i cs Hb k x Hin).
Qed.

(** Without a high-ROI channel and with distinct channels, the split is the
    plain equal split. *)
Lemma allocate_budget_no_boost (f02 f03 : Z -> Z) (fsc : Z -> Z -> Z -> Z)
    (total_budget : Z) (cs : list string) (prev : option string) :
  find_high_roi prev cs = None -> NoDup cs -> 0 < total_budget ->
  allocate_budget f02 f03 fsc total_budget cs prev =
  alloc_pairs (total_budget / Z.of_nat (length cs)) (total_budget mod Z.of_nat (length cs)) 0 cs.
Proof.
  intros Hf Hnd HT. destruct cs as [|c0 cs0]; [reflexivity|].
  set (cs := c0 :: cs0) in *.
  assert (Hne : cs <> []) by discriminate.
  unfold allocate_budget. cbv zeta.
  set (n := Z.of_nat (length cs)).
  assert (Hn : 0 < n) by (unfold n, cs; simpl; lia).
  destruct (Z.eqb_spec n 0) as [E|_]; [lia|].
  destruct (Z.leb_spec total_budget 0) as [HT0|_]; [lia|].
  cbn [orb]. rewrite Hf.
  set (P := alloc_pairs (total_budget / n) (total_budget mod n) 0 cs).
  assert (HP : set_all [] P = P).
  { rewrite set_all_fresh; [reflexivity|]. simpl. unfold P. rewrite keys_alloc_pairs. exact Hnd. }
  assert (HsP : dsum P = total_budget) by exact (alloc_pairs_total total_budget cs Hne).
  rewrite HP, (fix_total_id _ _ HsP), clamp_negatives_id, (fix_total_id _ _ HsP); [reflexivity|].
  intros k x Hin. apply (alloc_pairs_nonneg _ _ _ _ (Z.div_pos total_budget n ltac:(lia) Hn) k x Hin).
Qed.

Lemma map_dget0_keys (d : dict Z) : NoDup (keys d) -> map (dget0 d) (keys d) = map snd d.
Proof.
  induction d as [|[k v] t IH]; simpl; intros Hnd; [reflexivity|].
  inversion Hnd as [|? ? Hk Hnd']; subst.
  rewrite dget0_cons, String.eqb_refl. f_equal.
  rewrite <- IH by exact Hnd'. apply map_ext_in. intros k' Hk'.
  rewrite dget0_cons. destruct (String.eqb_spec k' k); [subst; contradiction | reflexivity].
Qed.

Lemma zsum_map_snd (d : dict Z) : zsum (map snd d) = dsum d.
Proof. induction d as [|[k v] t IH]; simpl; [reflexivity|]. unfold zsum in *. simpl. rewrite IH. reflexivity. Qed.

(** The mock history never names a high-ROI channel. *)
Lemma find_high_roi_mock (uid : string) (chans : list string) :
  find_high_roi (get_previous_results uid) chans = None.
Proof.
  unfold get_previous_results. destruct (String.eqb uid _); unfold find_high_roi;
    match goal with |- (if ?b then _ else _) = _ =>
      replace b with false by (vm_compute; reflexivity) end; reflexivity.
Qed.

(** ** The driver: shape of a successful run *)

Ltac split_gen_results_eqn :=
  repeat match goal with
         | |- context [match ?x with GenOk _ => _ | GenError _ => _ end] =>
             let E := fresh "Eg" in destruct x eqn:E
         end.

Lemma run_pipeline_success (fp : float_products) (c : collaborators) (raw : api_input)
    (tr : list event) (p : campaign_plan) :
  run_pipeline fp c raw = (tr, PlanResponse p) ->
  exists ci pe st copy vps,
    parse_input raw = Ret ci /\
    generate_strategy c ci pe
      (search_local_context c (cleaned_str ci "location") (cleaned_str ci "business_type")
         (match match dget (extract_entities c (cleaned_str ci "goal_description")) "events" with
                | Some l => l | None => [] end with
          | e :: _ => Some e | [] => None end))
      (get_previous_results (cleaned_str ci "user_id")) = GenOk st /\
    generate_visual_prompts c (opt_default (campaign_angle st) "Default Angle") pe copy
      = GenOk vps /\
    tr = [(S_Parse, false); (S_Entities, false); (S_History, false); (S_Trends, false);
          (S_Context, false); (S_Persona, false); (S_Strategy, false); (S_Allocate, false);
          (S_Creative, false); (S_Visual, false); (S_Aggregate, false)] /\
    channel_recommendations p =
      map (build_channel_rec
             (allocate_budget (fp_mul_02 fp) (fp_mul_03 fp) (fp_scaled fp)
                (cleaned_budget ci) (recommended_channels st)
                (get_previous_results (cleaned_str ci "user_id"))) copy vps)
          (recommended_channels st) /\
    feedback_loop_note p = opt_default (get_previous_results (cleaned_str ci "user_id"))
                             "No past data used.".
Proof.
  unfold run_pipeline, pcatch, pipeline_body, pbind, step, fatal_step, lift_parse.
  destruct (parse_input raw) as [ci|e] eqn:Hp; [|destruct e; discriminate].
  split_gen_results_eqn; simpl; intro H; try discriminate.
  injection H as <- <-.
  do 5 eexists. repeat split; try eassumption; reflexivity.
Qed.

Lemma strategy_postprocess_fields (total_budget : Z) (r r' : strategy) :
  strategy_postprocess total_budget r = GenOk r' ->
  recommended_channels r' = recommended_channels r /\ campaign_angle r' = campaign_angle r.
Proof.
  unfold strategy_postprocess.
  destruct (budget_split r) as [|kv t]; [intros H; injection H as <-; auto|].
  destruct (_ =? 0); [intros H; injection H as <-; auto|].
  destruct (py_max_key _) as [k|]; [|intros H; injection H as <-; auto].
  destruct (_ <? 0).
  - destruct (recommended_channels r) as [|ch chs] eqn:E; [discriminate|].
    intros H. injection H as <-. simpl. auto.
  - intros H. injection H as <-. simpl. auto.
Qed.

(** ** Step 8: the total for any rounding of the float products *)

Lemma fix_total_sum (total_budget : Z) (d : dict Z) :
  d <> [] -> dsum (fix_total total_budget d) = total_budget.
Proof.
  intros Hne. unfold fix_total.
  destruct (Z.eqb_spec (total_budget - dsum d) 0) as [E|E]; simpl; [lia|].
  destruct (py_max_key_some d Hne) as [k Hk]. rewrite Hk.
  destruct (py_max_key_spec d k Hk) as (pre & v & post & Hdec & _ & _).
  assert (Hkv : dget d k = Some (dget0 d k)).
  { destruct (dget_some d k) as (u & Hu & _).
    - rewrite Hdec. unfold keys. rewrite map_app. apply in_or_app. right. left. reflexivity.
    - unfold dget0. rewrite Hu. reflexivity. }
  rewrite (dsum_dset _ _ _ _ Hkv). lia.
Qed.

(** For distinct channels the split lists them in their order. *)
Lemma allocate_budget_keys_eq (f02 f03 : Z -> Z) (fsc : Z -> Z -> Z -> Z)
    (total_budget : Z) (cs : list string) (prev : option string) :
  NoDup cs -> 0 < total_budget ->
  keys (allocate_budget f02 f03 fsc total_budget cs prev) = cs.
Proof.
  intros Hnd HT. destruct cs as [|c0 cs0]; [reflexivity|].
  set (cs := c0 :: cs0) in *.
  unfold allocate_budget. cbv zeta.
  set (n := Z.of_nat (length cs)).
  assert (Hn : 0 < n) by (unfold n, cs; simpl; lia).
  destruct (Z.eqb_spec n 0) as [E|_]; [lia|].
  destruct (Z.leb_spec total_budget 0) as [HT0|_]; [lia|].
  cbn [orb]. rewrite keys_fix_total, keys_clamp_negatives, keys_fix_total.
  set (D0 := set_all [] (alloc_pairs (total_budget / n) (total_budget mod n) 0 cs)).
  assert (HkD0 : keys D0 = cs).
  { unfold D0. rewrite set_all_fresh; [apply keys_alloc_pairs|].
    simpl. rewrite keys_alloc_pairs. exact Hnd. }
  destruct (find_high_roi prev cs) as [h|]; [|exact HkD0].
  match goal with
  | |- context [if ?c then apply_boost _ _ _ _ _ _ _ _ else _] => destruct c eqn:Hc
  end; [|exact HkD0].
  apply andb_prop in Hc as [Hc _]. apply andb_prop in Hc as [_ Hc].
  destruct (dget D0 h) as [v|] eqn:Hg; [|discriminate].
  rewrite keys_apply_boost; [exact HkD0| |].
  - intros k Hk. rewrite HkD0. exact Hk.
  - exact (in_map fst _ _ (dget_In _ _ _ Hg)).
Qed.

Lemma allocate_budget_sum (f02 f03 : Z -> Z) (fsc : Z -> Z -> Z -> Z)
    (total_budget : Z) (cs : list string) (prev : option string) :
  0 < total_budget -> cs <> [] ->
  dsum (allocate_budget f02 f03 fsc total_budget cs prev) = total_budget.
Proof.
  intros HT Hne.
  destruct (allocate_budget_keys_gen f02 f03 fsc total_budget cs prev HT) as [_ Hk].
  destruct cs as [|c0 cs0]; [congruence|].
  unfold allocate_budget. cbv zeta.
  set (n := Z.of_nat (length (c0 :: cs0))).
  assert (Hn : 0 < n) by (unfold n; simpl; lia).
  destruct (Z.eqb_spec n 0) as [E|_]; [lia|].
  destruct (Z.leb_spec total_budget 0) as [HT0|_]; [lia|].
  cbn [orb]. apply fix_total_sum.
  intros E.
  assert (Hc0 : In c0 (keys (allocate_budget f02 f03 fsc total_budget (c0 :: cs0) prev)))
    by (apply Hk; left; reflexivity).
  unfold allocate_budget in Hc0. cbv zeta in Hc0. fold n in Hc0.
  destruct (Z.eqb_spec n 0) as [E'|_]; [lia|].
  destruct (Z.leb_spec total_budget 0) as [HT0|_]; [lia|].
  cbn [orb] in Hc0. rewrite keys_fix_total, E in Hc0. contradiction.
Qed.

Lemma allocate_budget_single (f02 f03 : Z -> Z) (fsc : Z -> Z -> Z -> Z)
    (total_budget : Z) (c : string) (prev : option string) :
  0 < total_budget -> allocate_budget f02 f03 fsc total_budget [c] prev = [(c, total_budget)].
Proof.
  intros HT. unfold allocate_budget. cbv zeta. simpl length.
  change (Z.of_nat 1) with 1.
  destruct (Z.leb_spec total_budget 0) as [HT0|_]; [lia|]. cbn [orb Z.eqb].
  rewrite Z.div_1_r, Z.mod_1_r.
  replace (set_all [] (alloc_pairs total_budget 0 0 [c])) with [(c, total_budget)]
    by (simpl; rewrite Z.add_0_r; reflexivity).
  assert (Hs : dsum [(c, total_budget)] = total_budget) by (simpl; lia).
  assert (Hb : match find_high_roi prev [c] with
               | Some h =>
                   if negb (String.eqb h "")
                      && (match dget [(c, total_budget)] h with Some _ => true | None => false end)
                      && (1 <? 1)
                   then apply_boost f02 f03 fsc total_budget [c] total_budget h [(c, total_budget)]
                   else [(c, total_budget)]
               | None => [(c, total_budget)]
               end = [(c, total_budget)]).
  { destruct (find_high_roi prev [c]); [|reflexivity]. rewrite andb_false_r. reflexivity. }
  rewrite Hb, (fix_total_id _ _ Hs), clamp_negatives_id, (fix_total_id _ _ Hs); [reflexivity|].
  intros k x [H|[]]. injection H as _ <-. lia.
Qed.

Lemma allocate_budget_mock_history (f02 f03 : Z -> Z) (fsc : Z -> Z -> Z -> Z)
    (total_budget : Z) (cs : list string) (uid : string) :
  allocate_budget f02 f03 fsc total_budget cs (get_previous_results uid) =
  allocate_budget f02 f03 fsc total_budget cs None.
Proof.
  unfold allocate_budget. cbv zeta. rewrite find_high_roi_mock. reflexivity.
Qed.

(** ** The driver: the channel loop *)

Lemma channel_names_recs (split : dict Z) (copy : dict string) (vps : list string)
    (chs : list string) :
  map channel_name (map (build_channel_rec split copy vps) chs) = chs.
Proof. rewrite map_map. simpl. apply map_id. Qed.

Lemma budgets_recs (split : dict Z) (copy : dict string) (vps : list string)
    (chs : list string) :
  map allocated_budget (map (build_channel_rec split copy vps) chs) = map (dget0 split) chs.
Proof. rewrite map_map. reflexivity. Qed.

Lemma cleaned_user_id (raw : api_input) (ci : dict pyval) :
  parse_input raw = Ret ci -> cleaned_str ci "user_id" = user_id raw.
Proof. intros Hp. destruct (parse_input_shape raw ci Hp) as [_ ->]. reflexivity. Qed.

Lemma zsum_split_keys (d : dict Z) (chs : list string) :
  keys d = chs -> NoDup chs -> zsum (map (dget0 d) chs) = dsum d.
Proof. intros <- Hnd. rewrite map_dget0_keys by exact Hnd. apply zsum_map_snd. Qed.

(** The outcome of a run, by where it stopped. *)
Lemma run_pipeline_cases (fp : float_products) (c : collaborators) (raw : api_input)
    (tr : list event) (r : response) :
  run_pipeline fp c raw = (tr, r) ->
  (exists p, r = PlanResponse p /\ Forall (fun e => snd e = false) tr) \/
  (exists msg, parse_input raw = Raise (ValueError msg) /\
     r = ErrorResponse 500 msg /\ tr = [(S_Parse, true)]) \/
  (exists s label m,
     In (s, label) fatal_labels /\
     r = ErrorResponse 500 (String.append label m) /\
     tr = removelast tr ++ [(s, true)] /\ Forall (fun e => snd e = false) (removelast tr)).
Proof.
  unfold run_pipeline, pcatch, pipeline_body, pbind, step, fatal_step, lift_parse.
  destruct (parse_input raw) as [ci|e] eqn:Hp.
  2: { destruct e as [msg|s d]; [|exfalso; revert Hp; unfold parse_input;
         destruct (negb _); discriminate].
       simpl. intros H. injection H as <- <-. right. left. eauto. }
  split_gen_results; simpl; intros H; injection H as <- <-;
    first
      [ left; eexists; split; [reflexivity|]; repeat constructor
      | right; right; do 3 eexists;
        split; [|split; [|split; [reflexivity | simpl; repeat constructor]]];
        [simpl; repeat first [left; reflexivity | right] | reflexivity] ].
Qed.

(** * Further properties of the driver and the allocator *)

(** X1: when the parsed budget is zero or negative, every channel of a
    returned plan is allocated 0. *)
Theorem plan_nonpositive_budget (fp : float_products) (c : collaborators) (raw : api_input)
    (tr : list event) (p : campaign_plan) (ci : dict pyval) :
  run_pipeline fp c raw = (tr, PlanResponse p) ->
  parse_input raw = Ret ci -> cleaned_budget ci <= 0 ->
  Forall (fun r => allocated_budget r = 0) (channel_recommendations p).
Proof.
  intros H Hp Hb.
  destruct (run_pipeline_success fp c raw tr p H)
    as (ci' & pe & st & copy & vps & Hp' & _ & _ & _ & Hch & _).
  rewrite Hp in Hp'. injection Hp' as <-.
  rewrite Hch, allocate_budget_nonpos by exact Hb.
  apply Forall_forall. intros r Hr. apply in_map_iff in Hr as (ch & <- & _). reflexivity.
Qed.

Lemma plan_nonpositive_budget_witness :
  Forall (fun r => allocated_budget r = 0) (channel_recommendations (plan_of negative_run)).
Proof.
  apply (plan_nonpositive_budget exact_products sample_ok negative_request
           (fst negative_run) (plan_of negative_run) negative_cleaned).
  - vm_compute. reflexivity.
  - vm_compute. reflexivity.
  - apply Z.leb_le. vm_compute. reflexivity.
Defined.

(** X2: for a positive budget, the split has one key per recommended
    channel, whatever the rounding of the float products; for distinct
    channels the keys come in the channels' order. *)
Theorem allocate_budget_keys (f02 f03 : Z -> Z) (fsc : Z -> Z -> Z -> Z)
    (total_budget : Z) (cs : list string) (prev : option string) :
  0 < total_budget ->
  NoDup (keys (allocate_budget f02 f03 fsc total_budget cs prev)) /\
  (forall k, In k (keys (allocate_budget f02 f03 fsc total_budget cs prev)) <-> In k cs) /\
  (NoDup cs -> keys (allocate_budget f02 f03 fsc total_budget cs prev) = cs).
Proof.
  intros HT. destruct (allocate_budget_keys_gen f02 f03 fsc total_budget cs prev HT) as [H1 H2].
  split; [exact H1|]. split; [exact H2|].
  intros Hnd. exact (allocate_budget_keys_eq f02 f03 fsc total_budget cs prev Hnd HT).
Qed.

Lemma allocate_budget_keys_witness :
  let out := allocate_budget exact_mul_02 exact_mul_03 exact_scaled 5000
               ["Pamphlets"; "Instagram Ads"]
               (Some "Pamphlets had the highest Conversion Rate.") in
  NoDup (keys out) /\ (forall k, In k (keys out) <-> In k ["Pamphlets"; "Instagram Ads"]) /\
  (NoDup ["Pamphlets"; "Instagram Ads"] -> keys out = ["Pamphlets"; "Instagram Ads"]).
Proof.
  apply (allocate_budget_keys exact_mul_02 exact_mul_03 exact_scaled 5000
           ["Pamphlets"; "Instagram Ads"] (Some "Pamphlets had the highest Conversion Rate.")).
  lia.
Defined.

(** X3: without a high-ROI channel, distinct channels share a positive
    budget equally, the first [total mod n] channels getting one more. *)
Theorem allocate_budget_equal_split (f02 f03 : Z -> Z) (fsc : Z -> Z -> Z -> Z)
    (total_budget : Z) (cs : list string) (prev : option string) :
  find_high_roi prev cs = None -> NoDup cs -> 0 < total_budget ->
  allocate_budget f02 f03 fsc total_budget cs prev =
  alloc_pairs (total_budget / Z.of_nat (length cs)) (total_budget mod Z.of_nat (length cs)) 0 cs.
Proof. exact (allocate_budget_no_boost f02 f03 fsc total_budget cs prev). Qed.

Lemma allocate_budget_equal_split_witness :
  allocate_budget exact_mul_02 exact_mul_03 exact_scaled 5001 ["Facebook Ads"; "Pamphlets"]
    (Some "No previous campaign data found.") =
  alloc_pairs (5001 / 2) (5001 mod 2) 0 ["Facebook Ads"; "Pamphlets"].
Proof.
  apply (allocate_budget_equal_split exact_mul_02 exact_mul_03 exact_scaled 5001
           ["Facebook Ads"; "Pamphlets"] (Some "No previous campaign data found.")).
  - vm_compute. reflexivity.
  - repeat constructor; simpl; intuition discriminate.
  - lia.
Defined.

(** X4: a single channel receives the whole positive budget, even when the
    history names it as the high-ROI channel. *)
Theorem allocate_budget_single_channel (f02 f03 : Z -> Z) (fsc : Z -> Z -> Z -> Z)
    (total_budget : Z) (c : string) (prev : option string) :
  0 < total_budget -> allocate_budget f02 f03 fsc total_budget [c] prev = [(c, total_budget)].
Proof. exact (allocate_budget_single f02 f03 fsc total_budget c prev). Qed.

Lemma allocate_budget_single_channel_witness :
  allocate_budget exact_mul_02 exact_mul_03 exact_scaled 700 ["Pamphlets"]
    (Some "Pamphlets had the highest Conversion Rate.") = [("Pamphlets", 700)].
Proof.
  apply (allocate_budget_single_channel exact_mul_02 exact_mul_03 exact_scaled 700
           "Pamphlets" (Some "Pamphlets had the highest Conversion Rate.")).
  lia.
Defined.

(** X5: for a positive budget and at least one channel, the split sums to
    the budget however the float products round: the last [fix_total]
    puts the whole drift on one channel. *)
Theorem allocate_budget_total_any_rounding (f02 f03 : Z -> Z) (fsc : Z -> Z -> Z -> Z)
    (total_budget : Z) (cs : list string) (prev : option string) :
  0 < total_budget -> cs <> [] ->
  dsum (allocate_budget f02 f03 fsc total_budget cs prev) = total_budget.
Proof. exact (allocate_budget_sum f02 f03 fsc total_budget cs prev). Qed.

Lemma allocate_budget_total_any_rounding_witness :
  dsum (allocate_budget (fun x => 3 * x) (fun x => x) (fun b a t => b * a)
          5000 ["Pamphlets"; "Instagram Ads"; "Flyers"]
          (Some "Pamphlets had the highest Conversion Rate.")) = 5000.
Proof.
  apply (allocate_budget_total_any_rounding (fun x => 3 * x) (fun x => x) (fun b a t => b * a)
           5000 ["Pamphlets"; "Instagram Ads"; "Flyers"]
           (Some "Pamphlets had the highest Conversion Rate.")).
  - lia.
  - discriminate.
Defined.

(** X6: the history returned by the mock database never names a high-ROI
    channel, so the split for any user is the split without history. *)
Theorem history_never_boosts (f02 f03 : Z -> Z) (fsc : Z -> Z -> Z -> Z)
    (total_budget : Z) (cs : list string) (uid : string) :
  allocate_budget f02 f03 fsc total_budget cs (get_previous_results uid) =
  allocate_budget f02 f03 fsc total_budget cs None.
Proof. exact (allocate_budget_mock_history f02 f03 fsc total_budget cs uid). Qed.

(** X7: in a returned plan over distinct channels and a positive budget,
    the allocated budgets are the equal split of the budget. *)
Theorem plan_equal_split (fp : float_products) (c : collaborators) (raw : api_input)
    (tr : list event) (p : campaign_plan) (ci : dict pyval) :
  run_pipeline fp c raw = (tr, PlanResponse p) ->
  parse_input raw = Ret ci ->
  NoDup (map channel_name (channel_recommendations p)) ->
  0 < cleaned_budget ci ->
  map allocated_budget (channel_recommendations p) =
  map snd (alloc_pairs
             (cleaned_budget ci / Z.of_nat (length (channel_recommendations p)))
             (cleaned_budget ci mod Z.of_nat (length (channel_recommendations p))) 0
             (map channel_name (channel_recommendations p))).
Proof.
  intros H Hp Hnd Hb.
  destruct (run_pipeline_success fp c raw tr p H)
    as (ci' & pe & st & copy & vps & Hp' & _ & _ & _ & Hch & _).
  rewrite Hp in Hp'. injection Hp' as <-.
  rewrite Hch in Hnd |- *. rewrite channel_names_recs in Hnd |- *.
  rewrite budgets_recs, length_map, allocate_budget_mock_history.
  rewrite allocate_budget_no_boost by (reflexivity || assumption).
  set (P := alloc_pairs _ _ 0 (recommended_channels st)).
  assert (HkP : keys P = recommended_channels st) by apply keys_alloc_pairs.
  rewrite <- (map_dget0_keys P) by (rewrite HkP; exact Hnd).
  rewrite HkP. reflexivity.
Qed.

Lemma plan_equal_split_witness :
  map allocated_budget (channel_recommendations sample_plan) =
  map snd (alloc_pairs
             (cleaned_budget sample_cleaned / Z.of_nat (length (channel_recommendations sample_plan)))
             (cleaned_budget sample_cleaned mod Z.of_nat (length (channel_recommendations sample_plan)))
             0 (map channel_name (channel_recommendations sample_plan))).
Proof.
  apply (plan_equal_split exact_products sample_ok sample_request (fst sample_run) sample_plan
           sample_cleaned).
  - vm_compute. reflexivity.
  - vm_compute. reflexivity.
  - vm_compute. repeat constructor; simpl; intuition discriminate.
  - apply Z.ltb_lt. vm_compute. reflexivity.
Defined.

(** X8: in a returned plan over distinct channels, at least one channel and
    a positive budget, the allocated budgets sum to the parsed budget,
    whatever the rounding of the float products. *)
Theorem plan_budget_total (fp : float_products) (c : collaborators) (raw : api_input)
    (tr : list event) (p : campaign_plan) (ci : dict pyval) :
  run_pipeline fp c raw = (tr, PlanResponse p) ->
  parse_input raw = Ret ci ->
  NoDup (map channel_name (channel_recommendations p)) ->
  channel_recommendations p <> [] ->
  0 < cleaned_budget ci ->
  zsum (map allocated_budget (channel_recommendations p)) = cleaned_budget ci.
Proof.
  intros H Hp Hnd Hne Hb.
  destruct (run_pipeline_success fp c raw tr p H)
    as (ci' & pe & st & copy & vps & Hp' & _ & _ & _ & Hch & _).
  rewrite Hp in Hp'. injection Hp' as <-.
  rewrite Hch in Hnd, Hne |- *. rewrite channel_names_recs in Hnd.
  rewrite budgets_recs.
  rewrite zsum_split_keys; [| apply allocate_budget_keys_eq; assumption | exact Hnd].
  apply allocate_budget_sum; [exact Hb|].
  intros E. rewrite E in Hne. apply Hne. reflexivity.
Qed.

Lemma plan_budget_total_witness :
  zsum (map allocated_budget (channel_recommendations sample_plan)) = cleaned_budget sample_cleaned.
Proof.
  apply (plan_budget_total exact_products sample_ok sample_request (fst sample_run) sample_plan
           sample_cleaned).
  - vm_compute. reflexivity.
  - vm_compute. reflexivity.
  - vm_compute. repeat constructor; simpl; intuition discriminate.
  - vm_compute. discriminate.
  - apply Z.ltb_lt. vm_compute. reflexivity.
Defined.

(** X9: the feedback note of a returned plan is the mock history's summary
    for the request's user; it is never "No past data used.". *)
Theorem plan_feedback_note (fp : float_products) (c : collaborators) (raw : api_input)
    (tr : list event) (p : campaign_plan) :
  run_pipeline fp c raw = (tr, PlanResponse p) ->
  feedback_loop_note p = opt_default (get_previous_results (user_id raw)) "No past data used." /\
  feedback_loop_note p <> "No past data used.".
Proof.
  intros H.
  destruct (run_pipeline_success fp c raw tr p H)
    as (ci & pe & st & copy & vps & Hp & _ & _ & _ & _ & Hn).
  rewrite Hn, (cleaned_user_id raw ci Hp).
  unfold get_previous_results. destruct (String.eqb _ _); split; try reflexivity; discriminate.
Qed.

Lemma plan_feedback_note_witness :
  feedback_loop_note sample_plan =
    opt_default (get_previous_results (user_id sample_request)) "No past data used." /\
  feedback_loop_note sample_plan <> "No past data used.".
Proof.
  apply (plan_feedback_note exact_products sample_ok sample_request (fst sample_run)).
  vm_compute. reflexivity.
Defined.



(** X11: all channels of a returned plan carry the same visual prompt. *)
Theorem plan_same_visual_prompt (fp : float_products) (c : collaborators) (raw : api_input)
    (tr : list event) (p : campaign_plan) (r1 r2 : channel_rec) :
  run_pipeline fp c raw = (tr, PlanResponse p) ->
  In r1 (channel_recommendations p) -> In r2 (channel_recommendations p) ->
  visual_prompt r1 = visual_prompt r2.
Proof.
  intros H H1 H2.
  destruct (run_pipeline_plan fp c raw tr p H) as (ci & copy & vps & st & _ & Hch).
  rewrite Hch in H1, H2.
  apply in_map_iff in H1 as (ch1 & <- & _). apply in_map_iff in H2 as (ch2 & <- & _).
  reflexivity.
Qed.

Lemma plan_same_visual_prompt_witness :
  visual_prompt (nth 0 (channel_recommendations sample_plan) (build_channel_rec [] [] [] "")) =
  visual_prompt (nth 1 (channel_recommendations sample_plan) (build_channel_rec [] [] [] "")).
Proof.
  apply (plan_same_visual_prompt exact_products sample_ok sample_request (fst sample_run)
           sample_plan).
  - vm_compute. reflexivity.
  - apply nth_In. apply Nat.ltb_lt. vm_compute. reflexivity.
  - apply nth_In. apply Nat.ltb_lt. vm_compute. reflexivity.
Defined.

(** X12: a request whose channel preference is not allowed is answered with
    HTTP 500 and a detail starting "Input Parsing Failed: ", after the parse
    step alone: no later step runs. *)
Theorem parse_failure_response (fp : float_products) (c : collaborators) (raw : api_input) :
  check_channel_preference (channel_preference raw) = false ->
  exists msg, run_pipeline fp c raw =
    ([(S_Parse, true)], ErrorResponse 500 (String.append "Input Parsing Failed: " msg)).
Proof.
  intros Hc.
  assert (Hp : parse_input raw = Raise (ValueError
     "Input Parsing Failed: channel_preference must be one of ['Online', 'Offline', 'Both', 'AI Recommend']"))
    by (unfold parse_input; rewrite Hc; reflexivity).
  eexists. unfold run_pipeline, pcatch, pipeline_body, pbind, lift_parse. rewrite Hp. reflexivity.
Qed.

Lemma parse_failure_response_witness :
  exists msg, run_pipeline exact_products sample_ok misspelt_request =
    ([(S_Parse, true)], ErrorResponse 500 (String.append "Input Parsing Failed: " msg)).
Proof.
  apply parse_failure_response. vm_compute. reflexivity.
Defined.

(** X13: every error answer has status 500, and its trace ends with the one
    step flagged as failed. *)
Theorem error_response_500 (fp : float_products) (c : collaborators) (raw : api_input)
    (tr : list event) (s : Z) (d : string) :
  run_pipeline fp c raw = (tr, ErrorResponse s d) ->
  s = 500 /\
  exists st, tr = removelast tr ++ [(st, true)] /\ Forall (fun e => snd e = false) (removelast tr).
Proof.
  intros H.
  destruct (run_pipeline_cases fp c raw tr _ H)
    as [(p & E & _) | [(msg & _ & E & ->) | (st & label & m & _ & E & Htr & Hf)]];
    [discriminate | injection E as -> _ | injection E as -> _].
  - split; [reflexivity|]. exists S_Parse. split; [reflexivity | constructor].
  - split; [reflexivity|]. exists st. split; assumption.
Qed.

Lemma error_response_500_witness :
  error_status persona_error_run = 500 /\
  exists st, fst persona_error_run = removelast (fst persona_error_run) ++ [(st, true)] /\
             Forall (fun e => snd e = false) (removelast (fst persona_error_run)).
Proof.
  apply (error_response_500 exact_products
           (sample_collaborators (GenOk sample_strategy) (GenError "quota exceeded")
              (GenOk []) (GenOk [])) sample_request (fst persona_error_run)
           (error_status persona_error_run) (error_detail persona_error_run)).
  vm_compute. reflexivity.
Defined.



(** X15: the detail of an error answer starts with the prefix of the
    generative step that failed. *)
Theorem error_detail_prefix (fp : float_products) (c : collaborators) (raw : api_input)
    (tr : list event) (s : Z) (d : string) (st : stage) (label : string) :
  run_pipeline fp c raw = (tr, ErrorResponse s d) ->
  In (st, label) fatal_labels -> In (st, true) tr ->
  exists m, d = String.append label m.
Proof.
  intros H Hl Hin.
  destruct (run_pipeline_cases fp c raw tr _ H)
    as [(p & E & _) | [(msg & _ & E & ->) | (st' & label' & m & Hl' & E & Htr & Hf)]];
    [discriminate | |].
  - destruct Hin as [Hin|[]]. injection Hin as <-.
    unfold fatal_labels in Hl. simpl in Hl. intuition discriminate.
  - injection E as _ ->. exists m.
    rewrite Htr in Hin. apply in_app_or in Hin as [Hin|[Hin|[]]].
    + rewrite Forall_forall in Hf. apply Hf in Hin. discriminate.
    + injection Hin as <-. unfold fatal_labels in Hl, Hl'. simpl in Hl, Hl'.
      destruct Hl as [Hl|[Hl|[Hl|[Hl|[]]]]]; destruct Hl' as [Hl'|[Hl'|[Hl'|[Hl'|[]]]]];
        congruence.
Qed.

Lemma error_detail_prefix_witness :
  exists m, error_detail persona_error_run = String.append "Persona Generation Failed: " m.
Proof.
  apply (error_detail_prefix exact_products
           (sample_collaborators (GenOk sample_strategy) (GenError "quota exceeded")
              (GenOk []) (GenOk [])) sample_request (fst persona_error_run)
           (error_status persona_error_run) (error_detail persona_error_run) S_Persona).
  - vm_compute. reflexivity.
  - left. reflexivity.
  - vm_compute. tauto.
Defined.

(** X16: the budget-split correction keeps the model's channels and angle. *)
Theorem strategy_postprocess_keeps_channels (total_budget : Z) (r r' : strategy) :
  strategy_postprocess total_budget r = GenOk r' ->
  recommended_channels r' = recommended_channels r /\ campaign_angle r' = campaign_angle r.
Proof. exact (strategy_postprocess_fields total_budget r r'). Qed.

Lemma strategy_postprocess_keeps_channels_witness :
  exists r', strategy_postprocess 6000 sample_strategy = GenOk r' /\
  recommended_channels r' = recommended_channels sample_strategy /\
  campaign_angle r' = campaign_angle sample_strategy.
Proof.
  eexists. split; [vm_compute; reflexivity|].
  apply (strategy_postprocess_keeps_channels 6000 sample_strategy). vm_compute. reflexivity.
Defined.

(** ** Copy keys, character by character *)

Lemma las_append (a b : string) :
  list_ascii_of_string (String.append a b) = list_ascii_of_string a ++ list_ascii_of_string b.
Proof. induction a as [|x a IH]; simpl; [reflexivity|]. rewrite IH. reflexivity. Qed.

Lemma las_replace_char (c : ascii) (r s : string) :
  list_ascii_of_string (replace_char c r s) =
  flat_map (fun x => if Ascii.eqb c x then list_ascii_of_string r else [x])
    (list_ascii_of_string s).
Proof.
  induction s as [|x s IH]; simpl; [reflexivity|].
  destruct (Ascii.eqb c x); simpl; rewrite ?las_append, IH; reflexivity.
Qed.

Lemma las_py_lower (s : string) :
  list_ascii_of_string (py_lower s) = map ascii_lower (list_ascii_of_string s).
Proof. induction s as [|x s IH]; simpl; [reflexivity|]. rewrite IH. reflexivity. Qed.

(** [c in s] for a one-character [c] *)
Lemma py_contains_char (c : ascii) (s : string) :
  py_contains (String c EmptyString) s = existsb (Ascii.eqb c) (list_ascii_of_string s).
Proof.
  induction s as [|x s IH]; simpl; [reflexivity|].
  rewrite IH. destruct (ascii_dec c x) as [<-|Hne].
  - rewrite Ascii.eqb_refl. destruct s; reflexivity.
  - destruct (Ascii.eqb_spec c x); [contradiction|reflexivity].
Qed.

Lemma replace_char_absent (c : ascii) (r s : string) :
  existsb (Ascii.eqb c) (list_ascii_of_string s) = false -> replace_char c r s = s.
Proof.
  induction s as [|x s IH]; simpl; [reflexivity|].
  intros H. apply orb_false_iff in H as [Hx Hs]. rewrite Hx, IH by exact Hs. reflexivity.
Qed.

Lemma existsb_flat_map {A B} (f : A -> list B) (p : B -> bool) (l : list A) :
  existsb p (flat_map f l) = existsb (fun x => existsb p (f x)) l.
Proof. induction l as [|x l IH]; simpl; [reflexivity|]. rewrite existsb_app, IH. reflexivity. Qed.

Lemma replace_char_removes (c : ascii) (r s : string) :
  existsb (Ascii.eqb c) (list_ascii_of_string r) = false ->
  existsb (Ascii.eqb c) (list_ascii_of_string (replace_char c r s)) = false.
Proof.
  intros Hr. rewrite las_replace_char, existsb_flat_map.
  induction (list_ascii_of_string s) as [|x l IH]; simpl; [reflexivity|].
  rewrite IH, orb_false_r. destruct (Ascii.eqb c x) eqn:E; [exact Hr|].
  simpl. rewrite E. reflexivity.
Qed.

Lemma replace_char_keeps_absent (c c' : ascii) (r s : string) :
  existsb (Ascii.eqb c) (list_ascii_of_string r) = false ->
  existsb (Ascii.eqb c) (list_ascii_of_string s) = false ->
  existsb (Ascii.eqb c) (list_ascii_of_string (replace_char c' r s)) = false.
Proof.
  intros Hr. rewrite las_replace_char, existsb_flat_map.
  induction (list_ascii_of_string s) as [|x l IH]; simpl; [reflexivity|].
  intros H. apply orb_false_iff in H as [Hx Hl]. rewrite IH by exact Hl.
  destruct (Ascii.eqb c' x); [rewrite Hr; reflexivity|]. simpl. rewrite Hx. reflexivity.
Qed.

Lemma py_lower_absent (c : ascii) (s : string) :
  (forall x, Ascii.eqb c (ascii_lower x) = Ascii.eqb c x) ->
  existsb (Ascii.eqb c) (list_ascii_of_string (py_lower s)) =
  existsb (Ascii.eqb c) (list_ascii_of_string s).
Proof.
  intros Hc. rewrite las_py_lower.
  induction (list_ascii_of_string s) as [|x l IH]; simpl; [reflexivity|].
  rewrite Hc, IH. reflexivity.
Qed.

Lemma ascii_lower_amp (x : ascii) : Ascii.eqb "&" (ascii_lower x) = Ascii.eqb "&" x.
Proof. destruct x as [[] [] [] [] [] [] [] []]; vm_compute; reflexivity. Qed.

Lemma ascii_lower_dot (x : ascii) : Ascii.eqb "." (ascii_lower x) = Ascii.eqb "." x.
Proof. destruct x as [[] [] [] [] [] [] [] []]; vm_compute; reflexivity. Qed.

(** X17: for a channel name without '&' and '.', the Creative Writer and
    the aggregator derive the same copy key. *)
Theorem creative_key_agrees (channel : string) :
  py_contains "&" channel = false -> py_contains "." channel = false ->
  creative_key channel = aggregator_key channel.
Proof.
  rewrite !py_contains_char. intros Ha Hd.
  unfold creative_key, aggregator_key.
  set (x := replace_char "-"%char "_" (replace_char " "%char "_" (py_lower channel))).
  assert (Hxa : existsb (Ascii.eqb "&") (list_ascii_of_string x) = false).
  { unfold x. apply replace_char_keeps_absent; [reflexivity|].
    apply replace_char_keeps_absent; [reflexivity|].
    rewrite py_lower_absent by exact ascii_lower_amp. exact Ha. }
  assert (Hxd : existsb (Ascii.eqb ".") (list_ascii_of_string x) = false).
  { unfold x. apply replace_char_keeps_absent; [reflexivity|].
    apply replace_char_keeps_absent; [reflexivity|].
    rewrite py_lower_absent by exact ascii_lower_dot. exact Hd. }
  rewrite (replace_char_absent "&" "and" x Hxa), (replace_char_absent "." EmptyString x Hxd).
  reflexivity.
Qed.

Lemma creative_key_agrees_witness :
  creative_key "Instagram Ads" = aggregator_key "Instagram Ads".
Proof. apply creative_key_agrees; reflexivity. Defined.

(** X18: the copy key of the Creative Writer has no space, hyphen,
    ampersand or dot; the aggregator's key has no space or hyphen. *)
Theorem copy_key_charset (channel : string) :
  py_contains " " (creative_key channel) = false /\
  py_contains "-" (creative_key channel) = false /\
  py_contains "&" (creative_key channel) = false /\
  py_contains "." (creative_key channel) = false /\
  py_contains " " (aggregator_key channel) = false /\
  py_contains "-" (aggregator_key channel) = false.
Proof.
  unfold creative_key, aggregator_key. rewrite !py_contains_char, !las_append, !existsb_app.
  repeat split; (apply orb_false_iff; split; [|reflexivity]);
    repeat first
      [ apply replace_char_removes; reflexivity
      | apply replace_char_keeps_absent; [reflexivity|] ].
Qed.

(** ** Steps 4 and 5: search texts and summaries *)

Lemma prefix_append (sub a b : string) :
  String.prefix sub a = true -> String.prefix sub (String.append a b) = true.
Proof.
  revert a. induction sub as [|x sub IH]; intros a H; [destruct (String.append a b); reflexivity|].
  destruct a as [|y a]; [discriminate|]. simpl in *.
  destruct (ascii_dec x y); [apply IH; exact H | discriminate].
Qed.

Lemma py_contains_append_l (sub a b : string) :
  py_contains sub a = true -> py_contains sub (String.append a b) = true.
Proof.
  induction a as [|x a IH]; intros H.
  - simpl in H. destruct sub; [destruct b; reflexivity | discriminate].
  - change (String.prefix sub (String x a) || py_contains sub a = true) in H.
    change (String.prefix sub (String x (String.append a b))
            || py_contains sub (String.append a b) = true).
    apply orb_true_iff in H as [H|H].
    + apply orb_true_iff. left. exact (prefix_append sub (String x a) b H).
    + apply orb_true_iff. right. exact (IH H).
Qed.

Lemma py_lower_append (a b : string) :
  py_lower (String.append a b) = String.append (py_lower a) (py_lower b).
Proof. induction a as [|x a IH]; simpl; [reflexivity|]. rewrite IH. reflexivity. Qed.

Lemma search_google_failure_text (r : serper_result) :
  search_gave_no_text r ->
  py_contains "failed" (py_lower (search_google r)) = true \/
  py_contains "configured" (py_lower (search_google r)) = true \/
  py_contains "found" (py_lower (search_google r)) = true.
Proof.
  intros [->|[[code ->]|[->|(ab & org & -> & Hj)]]].
  - right. left. reflexivity.
  - left. change (search_google (HttpStatusError code))
      with (String.append "Search failed with status: " (py_str_int code)).
    rewrite py_lower_append. apply py_contains_append_l. reflexivity.
  - left. reflexivity.
  - right. right. simpl. rewrite Hj. reflexivity.
Qed.

Lemma search_google_rejected (r : serper_result) :
  search_gave_no_text r -> snippets_usable (search_google r) = false.
Proof.
  intros H. unfold snippets_usable.
  destruct (search_google_failure_text r H) as [E|[E|E]]; rewrite E;
    rewrite ?andb_false_r; reflexivity.
Qed.


(** X19: every failure text of [search_google] (no API key, an HTTP error
    status, a request error, no snippets) fails the guard of step 5. *)
Theorem search_failures_rejected (r : serper_result) :
  search_gave_no_text r -> snippets_usable (search_google r) = false.
Proof. exact (search_google_rejected r). Qed.

Lemma search_failures_rejected_witness :
  snippets_usable (search_google (HttpStatusError 503)) = false.
Proof.
  apply search_failures_rejected. right. left. exists 503. reflexivity.
Defined.



(** X21: the text of an unexpected search exception passes the guard of
    step 5 and is summarized by the chain as if it were search results. *)
Theorem unexpected_search_error_summarized (env : context_env)
    (location business_type : string) (event : option string)
    (ch : string -> string -> gen_result string) :
  search_chain env = Some ch ->
  context_web env (event_query location event) = OtherError ->
  dget (search_local_context_py env location business_type event) "local_events_summary" =
  Some (py_strip
          (match ch "Unexpected error during search."
                   (String.append "Summarize the main local events or festivals mentioned for "
                      (String.append location " based on the snippets.")) with
           | GenOk t => t
           | GenError n => String.append "Error summarizing event search results: " n
           end)).
Proof.
  intros Hc Hw. unfold search_local_context_py, summarize_snippets. rewrite Hc, Hw.
  cbv zeta. change (search_google OtherError) with "Unexpected error during search.".
  assert (Hu : snippets_usable "Unexpected error during search." = true) by reflexivity.
  rewrite Hu. reflexivity.
Qed.

Lemma unexpected_search_error_summarized_witness :
  dget (search_local_context_py failing_context_env "Pune" "cafe" None) "local_events_summary" =
  Some "Unexpected error during search.".
Proof.
  exact (unexpected_search_error_summarized failing_context_env "Pune" "cafe" None
           (fun s _ => GenOk s) eq_refl eq_refl).
Defined.

Lemma trends_helper_raise (r : serper_result) :
  r = RequestError \/ r = OtherError \/ (exists code, r = HttpStatusError code) ->
  search_google_trends_helper r = "Search request failed.".
Proof. intros [->|[->|[code ->]]]; reflexivity. Qed.

(** X22: when both searches of step 4 raise, the trend chain is still
    called, with the two failure texts as its search results. *)
Theorem trends_search_errors_summarized (env : trends_env) (keywords : list string)
    (location : string) (event : option string)
    (ch : string -> string -> string -> gen_result string) :
  keywords <> [] ->
  trend_summary_chain env = Some ch ->
  (forall q, trends_web env q = RequestError \/ trends_web env q = OtherError \/
             exists code, trends_web env q = HttpStatusError code) ->
  trend_timing (analyze_trends_via_search_py env keywords location event) =
  match ch (py_join " " (firstn 3 keywords)) location
          (String.append "Search request failed."
             (String.append newline "Search request failed.")) with
  | GenOk t => py_strip t
  | GenError _ => "Error summarizing trend search results."
  end.
Proof.
  intros Hne Hc Hw. destruct keywords as [|k ks]; [congruence|].
  unfold analyze_trends_via_search_py. cbv zeta.
  rewrite !trends_helper_raise by apply Hw.
  change (py_strip (String.append "Search request failed."
                      (String.append newline "Search request failed.")))
    with (String.append "Search request failed."
            (String.append newline "Search request failed.")).
  change (String.eqb (String.append "Search request failed."
                        (String.append newline "Search request failed.")) EmptyString)
    with false.
  cbv iota beta. rewrite Hc. reflexivity.
Qed.

Lemma trends_search_errors_summarized_witness :
  trend_timing (analyze_trends_via_search_py failing_trends_env ["sale"; "diwali"] "Pune" None) =
  String.append "Search request failed." (String.append newline "Search request failed.").
Proof.
  apply (trends_search_errors_summarized failing_trends_env ["sale"; "diwali"] "Pune" None
           (fun _ _ s => GenOk s)).
  - discriminate.
  - reflexivity.
  - intros q. simpl. destruct (py_contains "latest" q); [left; reflexivity|].
    right; right. exists 429. reflexivity.
Defined.


(** ** Step 2: sorted categories *)

Lemma str_ltb_total (a b : string) :
  a <> b -> str_ltb a b = false -> str_ltb b a = true.
Proof.
  revert b. induction a as [|x a IH]; intros b Hne Hlt; destruct b as [|y b].
  - congruence.
  - discriminate.
  - reflexivity.
  - simpl in Hlt |- *.
    destruct (Nat.ltb_spec (nat_of_ascii x) (nat_of_ascii y)) as [H1|H1]; [discriminate|].
    destruct (Ascii.eqb_spec x y) as [<-|Hxy].
    + rewrite Nat.ltb_irrefl, Ascii.eqb_refl. apply IH; [congruence | exact Hlt].
    + destruct (Nat.ltb_spec (nat_of_ascii y) (nat_of_ascii x)) as [H2|H2]; [reflexivity|].
      exfalso. apply Hxy. rewrite <- (ascii_nat_embedding x), <- (ascii_nat_embedding y).
      f_equal. lia.
Qed.

Definition hd_lt (y : string) (l : list string) : Prop :=
  match l with [] => True | z :: _ => str_ltb y z = true end.

Lemma insert_uniq_hd (y x : string) (l : list string) :
  hd_lt y l -> str_ltb y x = true -> hd_lt y (insert_uniq x l).
Proof.
  destruct l as [|z t]; simpl; intros Hl Hx; [exact Hx|].
  destruct (String.eqb x z); [exact Hl|]. destruct (str_ltb x z); simpl; assumption.
Qed.

Lemma str_increasing_cons (y : string) (l : list string) :
  str_increasing (y :: l) = true <-> hd_lt y l /\ str_increasing l = true.
Proof.
  destruct l as [|z t]; simpl; [tauto|].
  rewrite andb_true_iff. tauto.
Qed.

Lemma insert_uniq_increasing (x : string) (l : list string) :
  str_increasing l = true -> str_increasing (insert_uniq x l) = true.
Proof.
  induction l as [|y t IH]; intros H; [reflexivity|].
  simpl. destruct (String.eqb_spec x y) as [_|Hxy]; [exact H|].
  destruct (str_ltb x y) eqn:Hlt.
  - apply str_increasing_cons. split; [exact Hlt | exact H].
  - apply str_increasing_cons in H as [Hh Ht].
    apply str_increasing_cons. split.
    + apply insert_uniq_hd; [exact Hh|]. apply str_ltb_total; assumption.
    + apply IH. exact Ht.
Qed.

Lemma sorted_set_increasing (l : list string) : str_increasing (sorted_set l) = true.
Proof.
  induction l as [|x t IH]; [reflexivity|]. simpl. apply insert_uniq_increasing. exact IH.
Qed.

Lemma In_insert_uniq (x y : string) (l : list string) :
  In y (insert_uniq x l) <-> y = x \/ In y l.
Proof.
  induction l as [|z t IH]; simpl; [intuition congruence|].
  destruct (String.eqb_spec x z) as [<-|_]; [simpl; intuition congruence|].
  destruct (str_ltb x z); simpl; rewrite ?IH; intuition congruence.
Qed.

Lemma In_sorted_set (y : string) (l : list string) : In y (sorted_set l) <-> In y l.
Proof.
  induction l as [|x t IH]; simpl; [tauto|]. rewrite In_insert_uniq, IH. intuition congruence.
Qed.

(** X24: every list returned by the extractor is strictly increasing:
    sorted, without duplicates. *)
Theorem extract_entities_sorted (nlp : option (string -> nlp_doc)) (goal : string)
    (d : dict (list string)) :
  extract_entities_py nlp goal = NerEntities d ->
  Forall (fun kv => str_increasing (snd kv) = true) d.
Proof.
  unfold extract_entities_py. destruct nlp as [parse|]; [|discriminate].
  destruct (String.eqb _ _); [intros H; injection H as <-; constructor|].
  destruct (fold_left ner_token_step _ _) as [d0 P]. intros H. injection H as <-.
  apply Forall_forall. intros kv Hin. apply in_map_iff in Hin as (kv0 & <- & _).
  apply sorted_set_increasing.
Qed.

Lemma extract_entities_sorted_witness :
  exists d, extract_entities_py (Some (fun _ => sample_doc))
              "Diwali discount sale in Pune for students" = NerEntities d /\
            Forall (fun kv => str_increasing (snd kv) = true) d.
Proof.
  eexists. split; [vm_compute; reflexivity|].
  apply (extract_entities_sorted (Some (fun _ => sample_doc))
           "Diwali discount sale in Pune for students").
  vm_compute. reflexivity.
Defined.

(** ** Step 2: disjoint categories *)

Lemma list_at_dset (d : dict (list string)) (k k' : string) (v : list string) :
  list_at (dset d k v) k' = if String.eqb k' k then v else list_at d k'.
Proof.
  unfold list_at. destruct (String.eqb_spec k' k) as [->|Hne].
  - rewrite dget_dset_same. reflexivity.
  - rewrite dget_dset_other by congruence. reflexivity.
Qed.

Lemma str_mem_false (x : string) (l : list string) : str_mem x l = false -> ~ In x l.
Proof.
  intros H Hin.
  assert (E : existsb (String.eqb x) l = true)
    by (apply existsb_exists; exists x; split; [exact Hin | apply String.eqb_refl]).
  unfold str_mem in H. congruence.
Qed.

Lemma ner_inv_grow (d : dict (list string)) (P : list string) (y : string) :
  ner_inv (d, P) -> ner_inv (d, y :: P).
Proof.
  intros [H1 H2]. split; [|exact H2].
  intros k x Hk Hx. right. exact (H1 k x Hk Hx).
Qed.

Lemma ner_inv_same_lists (d d' : dict (list string)) (P : list string) :
  (forall k, In k ner_categories -> list_at d' k = list_at d k) ->
  ner_inv (d, P) -> ner_inv (d', P).
Proof.
  intros Hs [H1 H2]. split; simpl in *.
  - intros k x Hk. rewrite Hs by exact Hk. exact (H1 k x Hk).
  - intros k1 k2 x Hk1 Hk2. rewrite !Hs by assumption. exact (H2 k1 k2 x Hk1 Hk2).
Qed.

Lemma ner_inv_append (d : dict (list string)) (P : list string) (k x : string) :
  ner_inv (d, P) -> In k ner_categories -> ~ In x P ->
  ner_inv (append_at d k x, x :: P).
Proof.
  intros [H1 H2] Hk Hx. unfold append_at. split; simpl in *.
  - intros k' y Hk' Hy. rewrite list_at_dset in Hy.
    destruct (String.eqb_spec k' k) as [->|_].
    + apply in_app_or in Hy as [Hy|[<-|[]]]; [right; exact (H1 k y Hk Hy) | left; reflexivity].
    + right. exact (H1 k' y Hk' Hy).
  - intros k1 k2 y Hk1 Hk2 Hne Hy1 Hy2. rewrite list_at_dset in Hy1, Hy2.
    destruct (String.eqb_spec k1 k) as [->|Hk1k]; destruct (String.eqb_spec k2 k) as [->|Hk2k].
    + exact (Hne eq_refl).
    + apply in_app_or in Hy1 as [Hy1|[<-|[]]].
      * exact (H2 k k2 y Hk Hk2 Hne Hy1 Hy2).
      * exact (Hx (H1 k2 x Hk2 Hy2)).
    + apply in_app_or in Hy2 as [Hy2|[<-|[]]].
      * exact (H2 k1 k y Hk1 Hk Hne Hy1 Hy2).
      * exact (Hx (H1 k1 x Hk1 Hy1)).
    + exact (H2 k1 k2 y Hk1 Hk2 Hne Hy1 Hy2).
Qed.

Lemma entity_category_in (label k : string) :
  entity_category label = Some k -> In k ner_categories.
Proof.
  unfold entity_category.
  repeat match goal with
         | |- (if ?c then _ else _) = _ -> _ => destruct c
         end; intros H; try discriminate; injection H as <-; simpl; tauto.
Qed.

Lemma ner_entity_step_inv (st : dict (list string) * list string) (ent : ner_span) :
  ner_inv st -> ner_inv (ner_entity_step st ent).
Proof.
  destruct st as [d P]. intros Hi. unfold ner_entity_step.
  destruct (String.eqb _ EmptyString || str_mem _ P) eqn:E; [exact Hi|].
  apply orb_false_iff in E as [_ E].
  destruct (entity_category (ent_label ent)) as [k|] eqn:Hc.
  - apply ner_inv_append; [exact Hi | exact (entity_category_in _ _ Hc) | exact (str_mem_false _ _ E)].
  - apply ner_inv_grow. exact Hi.
Qed.

Lemma offer_terms_not_category : ~ In "offer_terms" ner_categories.
Proof. simpl. intuition discriminate. Qed.

Lemma ner_token_step_inv (st : dict (list string) * list string) (tok : ner_token) :
  ner_inv st -> ner_inv (ner_token_step st tok).
Proof.
  destruct st as [d P]. intros Hi. unfold ner_token_step.
  destruct (_ && _ && negb (str_mem _ P)) eqn:E; [|exact Hi].
  apply andb_prop in E as [_ E]. apply negb_true_iff in E.
  assert (Hm : ner_inv (append_at d "misc_keywords" (py_lower (tok_lemma tok)),
                        py_lower (tok_lemma tok) :: P))
    by (apply ner_inv_append; [exact Hi | simpl; tauto | exact (str_mem_false _ _ E)]).
  cbv zeta. destruct (is_offer_term _ _); [|exact Hm].
  refine (ner_inv_same_lists _ _ _ _ Hm).
  intros k Hk. unfold append_at. rewrite list_at_dset.
  destruct (String.eqb_spec k "offer_terms") as [->|_]; [contradiction (offer_terms_not_category Hk)|].
  destruct (dget _ "offer_terms"); [reflexivity|]. rewrite list_at_dset.
  destruct (String.eqb_spec k "offer_terms") as [->|_]; [contradiction (offer_terms_not_category Hk)|].
  reflexivity.
Qed.

Lemma ner_fold_inv {A} (step : dict (list string) * list string -> A -> dict (list string) * list string)
    (l : list A) (st : dict (list string) * list string) :
  (forall st a, ner_inv st -> ner_inv (step st a)) -> ner_inv st -> ner_inv (fold_left step l st).
Proof.
  intros Hs. revert st. induction l as [|a t IH]; intros st Hi; simpl; [exact Hi|].
  apply IH. apply Hs. exact Hi.
Qed.

Lemma ner_inv_initial : ner_inv (ner_initial, []).
Proof.
  split; simpl.
  - intros k x Hk. unfold list_at.
    simpl in Hk. repeat destruct Hk as [<-|Hk]; try contradiction; simpl; tauto.
  - intros k1 k2 x Hk1. unfold list_at.
    simpl in Hk1. repeat destruct Hk1 as [<-|Hk1]; try contradiction; simpl; tauto.
Qed.

Lemma list_at_map_sorted (d : dict (list string)) (k : string) :
  list_at (map (fun kv => (fst kv, sorted_set (snd kv))) d) k = sorted_set (list_at d k).
Proof.
  unfold list_at. induction d as [|[k' v] t IH]; simpl; [reflexivity|].
  destruct (String.eqb k k'); [reflexivity | exact IH].
Qed.

(** X25: no text sits in two of the seven categories of the extractor
    ([misc_keywords] included); only [offer_terms] may repeat one. *)
Theorem extract_entities_disjoint (nlp : option (string -> nlp_doc)) (goal : string)
    (d : dict (list string)) (k1 k2 : string) :
  extract_entities_py nlp goal = NerEntities d ->
  In k1 ner_categories -> In k2 ner_categories -> k1 <> k2 ->
  forall x, In x (list_at d k1) -> ~ In x (list_at d k2).
Proof.
  unfold extract_entities_py. destruct nlp as [parse|]; [|discriminate].
  destruct (String.eqb _ _); [intros H; injection H as <-; intros _ _ _ x []|].
  pose proof (ner_fold_inv ner_token_step (doc_tokens (parse goal))
                (fold_left ner_entity_step (doc_ents (parse goal)) (ner_initial, []))
                ner_token_step_inv
                (ner_fold_inv ner_entity_step _ _ ner_entity_step_inv ner_inv_initial)) as Hi.
  destruct (fold_left ner_token_step _ _) as [d0 P]. intros H. injection H as <-.
  intros Hk1 Hk2 Hne x Hx1 Hx2. rewrite list_at_map_sorted, In_sorted_set in Hx1, Hx2.
  destruct Hi as [_ Hd]. exact (Hd k1 k2 x Hk1 Hk2 Hne Hx1 Hx2).
Qed.

Lemma extract_entities_disjoint_witness :
  exists d, extract_entities_py (Some (fun _ => sample_doc))
              "Diwali discount sale in Pune for students" = NerEntities d /\
            forall x, In x (list_at d "events") -> ~ In x (list_at d "misc_keywords").
Proof.
  eexists. split; [vm_compute; reflexivity|].
  apply (extract_entities_disjoint (Some (fun _ => sample_doc))
           "Diwali discount sale in Pune for students").
  - vm_compute. reflexivity.
  - simpl. tauto.
  - simpl. tauto.
  - discriminate.
Defined.
